(** * TestStrategy: the bar-by-bar trading strategy of
      crates/backgambler/src/data/test/test.py

    The strategy is a callback object driven by a backtesting engine: the
    engine calls [next] once per bar and [notify_order] once per order-status
    change.  The two callbacks are embedded as computations in a small
    state-and-exception monad over a [World] that holds the strategy
    instance together with the engine-owned objects the callbacks read
    (the data line, the broker position) and write (order requests, the log).

    Prices are Python floats in the source; the only operation the strategy
    applies to them is [<], so they are embedded as integers (ticks). *)

From Stdlib Require Import ZArith List Bool Lia.
From Stdlib Require String.
Import ListNotations.
Open Scope Z_scope.

(** ** Data model *)

(** One time step of the instrument.  The strategy reads the [datetime]
    line (in [log]) and the [close] line; the other OHLCV lines are never
    touched by it. *)
Record Bar := mkBar { datetime : Z; close : Z }.

Inductive Side := Buy | Sell.

(** The statuses [notify_order] names. *)
Inductive OrderStatus :=
  Submitted | Accepted | Completed | Canceled | Margin | Rejected.

(** An order object as created by [self.buy()] / [self.sell()]. *)
Record Order := mkOrder { ref : nat; side : Side; size : Z }.

(** What [notify_order] receives: the order with its current status and
    execution price ([order.status], [order.executed.price]). *)
Record OrderView := mkView {
  view_order : Order;
  status : OrderStatus;
  executed_price : Z
}.

Definition isbuy (o : OrderView) : bool :=
  match side (view_order o) with Buy => true | Sell => false end.

Definition issell (o : OrderView) : bool :=
  match side (view_order o) with Sell => true | Buy => false end.

Definition status_eqb (a b : OrderStatus) : bool :=
  match a, b with
  | Submitted, Submitted | Accepted, Accepted | Completed, Completed
  | Canceled, Canceled | Margin, Margin | Rejected, Rejected => true
  | _, _ => false
  end.

(** [st in [a; b; ...]] on a Python list of statuses. *)
Definition status_in (st : OrderStatus) (l : list OrderStatus) : bool :=
  existsb (status_eqb st) l.

(** The messages the strategy passes to [log]; the ["%.2f"] formatting of
    the number is left to the printer. *)
Inductive Msg :=
| MsgClose (c : Z)
| MsgBuyCreate (c : Z)
| MsgSellCreate (c : Z)
| MsgBuyExecuted (p : Z)
| MsgSellExecuted (p : Z)
| MsgOrderCanceledMarginRejected.

(** The attributes of a [TestStrategy] instance.  [__init__] sets [order];
    [bar_executed] is created by the first assignment in [notify_order], so
    it starts unset ([None] here). *)
Record TestStrategy := mkStrategy {
  order : option Order;
  bar_executed : option Z
}.

(** Everything a callback can read or write.  [datas0] is the data feed
    [self.datas[0]], the bars delivered so far, newest first; [ahead] holds
    the bars the feed has loaded but not yet delivered, next one first
    (empty unless the feed was loaded before the run); [position] is the
    size of [self.position]; [requests] lists every order ever created through
    [buy]/[sell] (newest first) and [open_orders] the ones with no terminal
    status yet; [stake] is the size the engine gives an order created with
    default parameters; [stdout] is what [print] wrote (newest first). *)
Record World := mkWorld {
  datas0 : list Bar;
  ahead : list Bar;
  position : Z;
  stake : Z;
  requests : list Order;
  open_orders : list Order;
  self : TestStrategy;
  stdout : list (Z * Msg)
}.

(** ** Exceptions and the callback monad *)

Inductive Exception := IndexError | AttributeError.

(** A call either returns a value or raises; in both cases the world is
    left as the call made it (an exception undoes nothing). *)
Inductive Result (A : Type) :=
| Ok (a : A) (w : World)
| Raise (e : Exception) (w : World).
Arguments Ok {A} a w.
Arguments Raise {A} e w.

Definition M (A : Type) : Type := World -> Result A.

Definition ret {A} (a : A) : M A := fun w => Ok a w.

Definition bind {A B} (m : M A) (k : A -> M B) : M B :=
  fun w => match m w with
           | Ok a w' => k a w'
           | Raise e w' => Raise e w'
           end.

Definition world_of {A} (r : Result A) : World :=
  match r with Ok _ w => w | Raise _ w => w end.

Definition raised {A} (r : Result A) : option Exception :=
  match r with Ok _ _ => None | Raise e _ => Some e end.

Notation "x <- c1 ;; c2" := (bind c1 (fun x => c2))
  (at level 61, c1 at next level, right associativity).
Notation "c1 ;; c2" := (bind c1 (fun _ => c2))
  (at level 61, right associativity).

(** ** The engine objects the strategy touches *)

(** Python's [seq[k]] on a sequence: a negative position counts from the
    end, and a position outside the sequence raises [IndexError] ([None]
    here). *)
Definition py_index {A : Type} (l : list A) (k : Z) : option A :=
  let n := Z.of_nat (length l) in
  if (0 <=? k) && (k <? n) then nth_error l (Z.to_nat k)
  else if (- n <=? k) && (k <? 0) then nth_error l (Z.to_nat (n + k))
  else None.

(** The buffer behind the lines of the feed, oldest bar first: the bars
    delivered so far and, when the feed was loaded before the run, the
    bars still to come. *)
Definition line_array (delivered loaded_ahead : list Bar) : list Bar :=
  rev delivered ++ loaded_ahead.

(** The position of the current bar in the buffer ([-1] before the first
    bar). *)
Definition line_idx (delivered : list Bar) : Z :=
  Z.of_nat (length delivered) - 1.

(** The line accessor [line[ago]] of the backtesting framework, which is
    not part of the repository: [array[idx + ago]] on the line's buffer.
    Index 0 is the current bar and negative offsets look back; the lookup
    is Python's, so a look-back past the first bar does not fail but wraps
    round to the end of the buffer, and only a position outside the buffer
    raises [IndexError]. *)
Definition getitem (delivered loaded_ahead : list Bar) (ago : Z)
  : option Bar :=
  py_index (line_array delivered loaded_ahead) (line_idx delivered + ago).

(** [self.dataclose[ago]] *)
Definition dataclose (ago : Z) : M Z :=
  fun w => match getitem (datas0 w) (ahead w) ago with
           | Some b => Ok (close b) w
           | None => Raise IndexError w
           end.

(** [self.datas[0].datetime.date(ago)] *)
Definition datetime_date (ago : Z) : M Z :=
  fun w => match getitem (datas0 w) (ahead w) ago with
           | Some b => Ok (datetime b) w
           | None => Raise IndexError w
           end.

(** What [line[ago]] gives on the feed of world [w]. *)
Definition look (w : World) (ago : Z) : option Bar :=
  getitem (datas0 w) (ahead w) ago.

(** [len(self)]: the number of bars delivered so far. *)
Definition len_self : M Z :=
  fun w => Ok (Z.of_nat (length (datas0 w))) w.

(** [self.position], the broker's position, of which the strategy reads
    only the size's truth value. *)
Definition get_position : M Z := fun w => Ok (position w) w.

(** Modelled from the spec: the truth value of the framework's position
    object -- a zero quantity means flat, a non-zero one means a position
    is held. *)
Definition position_bool (p : Z) : bool := negb (p =? 0).

Definition print (line : Z * Msg) : M unit :=
  fun w => Ok tt (mkWorld (datas0 w) (ahead w) (position w) (stake w) (requests w)
                           (open_orders w) (self w) (line :: stdout w)).

(** Modelled from the spec: the framework's [self.buy()] / [self.sell()]
    with default parameters -- a market order of the default size is
    created, handed to the broker and returned. *)
Definition submit (s : Side) : M Order :=
  fun w =>
    let o := mkOrder (length (requests w)) s (stake w) in
    Ok o (mkWorld (datas0 w) (ahead w) (position w) (stake w) (o :: requests w)
                   (o :: open_orders w) (self w) (stdout w)).

Definition buy : M Order := submit Buy.
Definition sell : M Order := submit Sell.

(** ** Attribute access on [self] *)

Definition get_order : M (option Order) := fun w => Ok (order (self w)) w.

Definition set_order (o : option Order) : M unit :=
  fun w => Ok tt (mkWorld (datas0 w) (ahead w) (position w) (stake w) (requests w)
                           (open_orders w)
                           (mkStrategy o (bar_executed (self w))) (stdout w)).

(** Reading an attribute that was never assigned raises. *)
Definition get_bar_executed : M Z :=
  fun w => match bar_executed (self w) with
           | Some n => Ok n w
           | None => Raise AttributeError w
           end.

Definition set_bar_executed (n : Z) : M unit :=
  fun w => Ok tt (mkWorld (datas0 w) (ahead w) (position w) (stake w) (requests w)
                           (open_orders w)
                           (mkStrategy (order (self w)) (Some n)) (stdout w)).

(** [if self.order:] -- an order object is true, [None] is false. *)
Definition order_bool (o : option Order) : bool :=
  match o with Some _ => true | None => false end.

(** ** The strategy *)

(** [TestStrategy.__init__] *)
Definition init : TestStrategy := mkStrategy None None.

(** [TestStrategy.log(txt, dt=None)] *)
Definition log (txt : Msg) (dt : option Z) : M unit :=
  d <- match dt with
       | Some d => ret d
       | None => datetime_date 0
       end ;;
  print (d, txt).

(** [TestStrategy.notify_order(order)] *)
Definition notify_order (o : OrderView) : M unit :=
  if status_in (status o) [Submitted; Accepted] then ret tt
  else
    (if status_in (status o) [Completed] then
       (if isbuy o then log (MsgBuyExecuted (executed_price o)) None
        else if issell o then log (MsgSellExecuted (executed_price o)) None
        else ret tt) ;;
       n <- len_self ;;
       set_bar_executed n
     else if status_in (status o) [Canceled; Margin; Rejected] then
       log MsgOrderCanceledMarginRejected None
     else ret tt) ;;
    set_order None.

(** [TestStrategy.next()] *)
Definition next : M unit :=
  c <- dataclose 0 ;;
  log (MsgClose c) None ;;
  o <- get_order ;;
  if order_bool o then ret tt
  else
    p <- get_position ;;
    if negb (position_bool p) then
      c0 <- dataclose 0 ;;
      c1 <- dataclose (-1) ;;
      if c0 <? c1 then
        c1' <- dataclose (-1) ;;
        c2 <- dataclose (-2) ;;
        if c1' <? c2 then
          c <- dataclose 0 ;;
          log (MsgBuyCreate c) None ;;
          o <- buy ;;
          set_order (Some o)
        else ret tt
      else ret tt
    else
      n <- len_self ;;
      e <- get_bar_executed ;;
      if n >=? e + 5 then
        c <- dataclose 0 ;;
        log (MsgSellCreate c) None ;;
        o <- sell ;;
        set_order (Some o)
      else ret tt.

(** ** Observing a call *)

(** The order requests a call made: what [requests] gained, newest first. *)
Definition new_requests (before after : World) : list Order :=
  firstn (length (requests after) - length (requests before))
         (requests after).

(** The sides of the orders a callback issues when run on [w]. *)
Definition issued (m : M unit) (w : World) : list Side :=
  map side (new_requests w (world_of (m w))).

(** The world after [print] wrote one more line. *)
Definition printed (line : Z * Msg) (w : World) : World :=
  mkWorld (datas0 w) (ahead w) (position w) (stake w) (requests w) (open_orders w)
          (self w) (line :: stdout w).

(** The four states of the machine, read off the world the way [next]
    tests them: [self.order] set or not, [self.position] zero or not. *)
Definition Flat (w : World) : Prop :=
  order (self w) = None /\ position w = 0.
Definition Long (w : World) : Prop :=
  order (self w) = None /\ position w <> 0.
Definition EnteringLong (w : World) : Prop :=
  exists o, order (self w) = Some o /\ side o = Buy.
Definition ExitingLong (w : World) : Prop :=
  exists o, order (self w) = Some o /\ side o = Sell.

(** ** The engine *)

(** Modelled from the spec: the backtest engine (event scheduling and the
    broker), which is an imported framework and not part of the repository.
    It feeds one bar at a time and calls [next]; it reports status changes
    of orders that are still open and calls [notify_order]; an order leaves
    the open set on a terminal status, and the position changes only on
    [Completed], by the order's size. *)
Inductive Event :=
| EvBar (b : Bar)
| EvOrder (r : nat) (st : OrderStatus) (price : Z).

Definition terminal (st : OrderStatus) : bool :=
  status_in st [Completed; Canceled; Margin; Rejected].

Definition find_open (r : nat) (l : list Order) : option Order :=
  find (fun o => Nat.eqb (ref o) r) l.

Definition remove_open (r : nat) (l : list Order) : list Order :=
  filter (fun o => negb (Nat.eqb (ref o) r)) l.

Definition signed_size (o : Order) : Z :=
  match side o with Buy => size o | Sell => - size o end.

(** Modelled from the spec: the feed, to which the engine appends; a new
    bar becomes the current one.  Of a feed loaded before the run the new
    bar is the head of [ahead], which it leaves. *)
Definition advance (b : Bar) (w : World) : World :=
  mkWorld (b :: datas0 w) (tl (ahead w)) (position w) (stake w)
          (requests w) (open_orders w) (self w) (stdout w).

(** Modelled from the spec: the broker's bookkeeping for a status change
    of order [o]. *)
Definition broker_update (o : Order) (st : OrderStatus) (w : World) : World :=
  mkWorld (datas0 w) (ahead w)
          (if status_eqb st Completed then position w + signed_size o
           else position w)
          (stake w) (requests w)
          (if terminal st then remove_open (ref o) (open_orders w)
           else open_orders w)
          (self w) (stdout w).

(** Modelled from the spec: the engine's dispatch of one event; [None]
    when it cannot deliver the event (a status for an order that is not
    open). *)
Definition deliver (ev : Event) (w : World) : option (Result unit) :=
  match ev with
  | EvBar b => Some (next (advance b w))
  | EvOrder r st p =>
      match find_open r (open_orders w) with
      | Some o => Some (notify_order (mkView o st p) (broker_update o st w))
      | None => None
      end
  end.

(** Modelled from the spec: a run of the engine -- the events in order,
    as long as each is deliverable and no callback raises. *)
Fixpoint run (evs : list Event) (w : World) : option World :=
  match evs with
  | [] => Some w
  | ev :: evs' =>
      match deliver ev w with
      | Some (Ok _ w') => run evs' w'
      | _ => None
      end
  end.

(** Modelled from the spec: the state in which the engine starts calling
    back -- a strategy fresh from [__init__], no position, no open order,
    a positive default order size.  The feed may already hold bars. *)
Definition started (w : World) : Prop :=
  self w = init /\ position w = 0 /\ open_orders w = [] /\ 0 < stake w.

Definition reachable (w : World) : Prop :=
  exists w0 evs, started w0 /\ run evs w0 = Some w.

(** What the single-order discipline maintains between callbacks: the open
    orders are exactly the strategy's pending one, a pending buy sits on a
    flat book and a pending sell on a full one, and whenever a position is
    held [bar_executed] has been assigned. *)
Definition consistent (w : World) : Prop :=
  0 < stake w /\
  open_orders w = match order (self w) with Some o => [o] | None => [] end /\
  match order (self w) with
  | Some o => size o = stake w /\
              position w = match side o with Buy => 0 | Sell => stake w end
  | None => position w = 0 \/ position w = stake w
  end /\
  (position w <> 0 -> bar_executed (self w) <> None).

(** The world after the strategy placed an order of side [s] and kept it in
    [self.order]. *)
Definition placed (s : Side) (w : World) : World :=
  let o := mkOrder (length (requests w)) s (stake w) in
  mkWorld (datas0 w) (ahead w) (position w) (stake w) (o :: requests w)
          (o :: open_orders w) (mkStrategy (Some o) (bar_executed (self w)))
          (stdout w).

(** The world after [print] wrote the lines [ls] (newest first). *)
Definition logged (ls : list (Z * Msg)) (w : World) : World :=
  mkWorld (datas0 w) (ahead w) (position w) (stake w) (requests w) (open_orders w)
          (self w) (ls ++ stdout w).

(** The world with the strategy's attributes replaced. *)
Definition with_self (s : TestStrategy) (w : World) : World :=
  mkWorld (datas0 w) (ahead w) (position w) (stake w) (requests w) (open_orders w)
          s (stdout w).

(** ** Sample worlds *)

(** Two bars already in the feed, closes 10 then 9, nothing traded yet. *)
Definition two_bars : World :=
  mkWorld [mkBar 1 9; mkBar 0 10] [] 0 1 [] [] init [].

(** The third bar closes at 8: the strategy has just placed its buy. *)
Definition buy_pending : World :=
  let o := mkOrder 0 Buy 1 in
  mkWorld [mkBar 2 8; mkBar 1 9; mkBar 0 10] [] 0 1 [o] [o]
          (mkStrategy (Some o) None)
          [(2, MsgBuyCreate 8); (2, MsgClose 8)].

(** The buy was completed at a bar count of 3. *)
Definition holding : World :=
  mkWorld [mkBar 2 8; mkBar 1 9; mkBar 0 10] [] 1 1 [mkOrder 0 Buy 1] []
          (mkStrategy None (Some 3))
          [(2, MsgBuyExecuted 8); (2, MsgBuyCreate 8); (2, MsgClose 8)].

(** Five bars later the strategy has placed its sell. *)
Definition sell_pending : World :=
  let o := mkOrder 1 Sell 1 in
  mkWorld [mkBar 7 7; mkBar 6 7; mkBar 5 7; mkBar 4 7; mkBar 3 7;
           mkBar 2 8; mkBar 1 9; mkBar 0 10]
          [] 1 1 [o; mkOrder 0 Buy 1] [o] (mkStrategy (Some o) (Some 3)) [].

(** Four quiet bars after the buy was completed: the next bar is the fifth. *)
Definition ready_to_sell : World :=
  mkWorld [mkBar 6 7; mkBar 5 7; mkBar 4 7; mkBar 3 7;
           mkBar 2 8; mkBar 1 9; mkBar 0 10]
          [] 1 1 [mkOrder 0 Buy 1] [] (mkStrategy None (Some 3)) [].

(** A feed of four bars, closes 7, 10, 9, 8, loaded before the run; no
    bar delivered yet. *)
Definition preloaded : World :=
  mkWorld [] [mkBar 0 7; mkBar 1 10; mkBar 2 9; mkBar 3 8]
          0 1 [] [] init [].

(** The same feed once its first bar is the current one. *)
Definition preloaded_first_bar : World :=
  mkWorld [mkBar 0 7] [mkBar 1 10; mkBar 2 9; mkBar 3 8]
          0 1 [] [] init [].

(** A feed loaded before the run whose second bar is the current one:
    closes 9, 8 delivered, 7 and 10 still to come. *)
Definition preloaded_second_bar : World :=
  mkWorld [mkBar 1 8; mkBar 0 9] [mkBar 2 7; mkBar 3 10]
          0 1 [] [] init [].

(** A single bar in the feed, nothing traded yet. *)
Definition one_bar : World :=
  mkWorld [mkBar 0 10] [] 0 1 [] [] init [].

(** ** The branches of the callbacks *)

(** The ways a call of [next] ends, one constructor per path through its
    body, each with the condition that selects the path and the result the
    path produces. *)
Inductive NextCase (w : World) : Result unit -> Prop :=
| NextNoBar :
    look w 0 = None -> NextCase w (Raise IndexError w)
| NextPending o b :
    order (self w) = Some o -> look w 0 = Some b ->
    NextCase w (Ok tt (printed (datetime b, MsgClose (close b)) w))
| NextFlatNoPrevious b :
    Flat w -> look w 0 = Some b -> look w (-1) = None ->
    NextCase w (Raise IndexError
                  (printed (datetime b, MsgClose (close b)) w))
| NextFlatNotLower b b1 :
    Flat w -> look w 0 = Some b -> look w (-1) = Some b1 ->
    close b1 <= close b ->
    NextCase w (Ok tt (printed (datetime b, MsgClose (close b)) w))
| NextFlatNoBefore b b1 :
    Flat w -> look w 0 = Some b -> look w (-1) = Some b1 ->
    close b < close b1 -> look w (-2) = None ->
    NextCase w (Raise IndexError
                  (printed (datetime b, MsgClose (close b)) w))
| NextFlatOneStepDown b b1 b2 :
    Flat w -> look w 0 = Some b -> look w (-1) = Some b1 ->
    close b < close b1 -> look w (-2) = Some b2 ->
    close b2 <= close b1 ->
    NextCase w (Ok tt (printed (datetime b, MsgClose (close b)) w))
| NextFlatBuy b b1 b2 :
    Flat w -> look w 0 = Some b -> look w (-1) = Some b1 ->
    close b < close b1 -> look w (-2) = Some b2 ->
    close b1 < close b2 ->
    NextCase w (Ok tt (placed Buy
                         (printed (datetime b, MsgBuyCreate (close b))
                            (printed (datetime b, MsgClose (close b)) w))))
| NextLongUnset b :
    Long w -> look w 0 = Some b -> bar_executed (self w) = None ->
    NextCase w (Raise AttributeError
                  (printed (datetime b, MsgClose (close b)) w))
| NextLongHold b i :
    Long w -> look w 0 = Some b -> bar_executed (self w) = Some i ->
    Z.of_nat (length (datas0 w)) < i + 5 ->
    NextCase w (Ok tt (printed (datetime b, MsgClose (close b)) w))
| NextLongSell b i :
    Long w -> look w 0 = Some b -> bar_executed (self w) = Some i ->
    i + 5 <= Z.of_nat (length (datas0 w)) ->
    NextCase w (Ok tt (placed Sell
                         (printed (datetime b, MsgSellCreate (close b))
                            (printed (datetime b, MsgClose (close b)) w)))).

(** The same for [notify_order]. *)
Inductive NotifyCase (o : OrderView) (w : World) : Result unit -> Prop :=
| NotifyInformational :
    status o = Submitted \/ status o = Accepted ->
    NotifyCase o w (Ok tt w)
| NotifyNoBar :
    terminal (status o) = true -> look w 0 = None ->
    NotifyCase o w (Raise IndexError w)
| NotifyCompleted b :
    status o = Completed -> look w 0 = Some b ->
    NotifyCase o w
      (Ok tt (with_self
                (mkStrategy None (Some (Z.of_nat (length (datas0 w)))))
                (printed (datetime b,
                          match side (view_order o) with
                          | Buy => MsgBuyExecuted (executed_price o)
                          | Sell => MsgSellExecuted (executed_price o)
                          end) w)))
| NotifyFailed b :
    status o = Canceled \/ status o = Margin \/ status o = Rejected ->
    look w 0 = Some b ->
    NotifyCase o w
      (Ok tt (with_self (mkStrategy None (bar_executed (self w)))
                (printed (datetime b, MsgOrderCanceledMarginRejected) w))).

(** ** The machine's states and arrows *)

Inductive Phase := PFlat | PEnteringLong | PLong | PExitingLong.

(** The state a world is in, computed the way [next] tests it. *)
Definition phase (w : World) : Phase :=
  match order (self w) with
  | Some o => match side o with
              | Buy => PEnteringLong
              | Sell => PExitingLong
              end
  | None => if position w =? 0 then PFlat else PLong
  end.

(** The moves one event can make. *)
Definition arrow (p : Phase) (ev : Event) (q : Phase) : bool :=
  match p, ev, q with
  | PFlat, EvBar _, PFlat | PFlat, EvBar _, PEnteringLong => true
  | PLong, EvBar _, PLong | PLong, EvBar _, PExitingLong => true
  | PEnteringLong, EvBar _, PEnteringLong => true
  | PExitingLong, EvBar _, PExitingLong => true
  | PEnteringLong, EvOrder _ st _, PEnteringLong
  | PExitingLong, EvOrder _ st _, PExitingLong =>
      status_in st [Submitted; Accepted]
  | PEnteringLong, EvOrder _ st _, PLong
  | PExitingLong, EvOrder _ st _, PFlat =>
      status_in st [Completed]
  | PEnteringLong, EvOrder _ st _, PFlat
  | PExitingLong, EvOrder _ st _, PLong =>
      status_in st [Canceled; Margin; Rejected]
  | _, _, _ => false
  end.

(** ** Reading the log *)

Definition is_close_line (l : Z * Msg) : bool :=
  match snd l with MsgClose _ => true | _ => false end.

Definition is_create_line (l : Z * Msg) : bool :=
  match snd l with
  | MsgBuyCreate _ | MsgSellCreate _ => true
  | _ => false
  end.

Definition is_bar (ev : Event) : bool :=
  match ev with EvBar _ => true | EvOrder _ _ _ => false end.

(** * The bulk downloader, scripts/get_a_shares.py

    The script lists the instruments of the data service and fetches one
    price table per instrument into a CSV file.  Everything it calls lives
    outside the repository (the data service client, the data-frame
    library, the clock), so those calls are parameters of the embedding:
    functions of the state of the outside world that either return a value
    or raise.  What is embedded is the script's own control flow: the loop,
    the [try]/[except], the messages and the pause. *)
Module Download.
Import Stdlib.Strings.String.
Local Open Scope string_scope.

(** What a call into a library gives back.  An exception is kept as the
    text [str(e)] that the handler prints; only exceptions that
    [except Exception] catches are meant. *)
Inductive Outcome (A : Type) :=
| Returned (a : A)
| Raised (msg : string).
Arguments Returned {A} a.
Arguments Raised {A} msg.

Section Script.

(** The outside world (the data service, the file system) and the tables
    [pro_bar] returns. *)
Variables (Remote Frame : Type).

(** Lines 9-18: [ts.set_token], [ts.pro_api] and the [stock_basic] query,
    giving the column [data.ts_code]. *)
Variable stock_basic : Remote -> Outcome (list string) * Remote.

(** [ts.pro_bar(ts_code=code, adj="hfq", start_date=..., end_date=...)];
    the client may hand back [None] instead of a table. *)
Variable pro_bar : string -> Remote -> Outcome (option Frame) * Remote.

(** [df.to_csv(path, index=False)] *)
Variable to_csv : Frame -> string -> Remote -> Outcome unit * Remote.

(** What the script does to the outside, in the order it happens. *)
Inductive Effect :=
| Out (line : string)
| Sleep (secs : nat)
| ProBar (code : string)
| ToCsv (path : string) (df : Frame).

(** The state a statement runs in: the outside world and the effects so
    far, newest first. *)
Record Sys := mkSys { remote : Remote; trace : list Effect }.

Definition Py (A : Type) : Type := Sys -> Outcome A * Sys.

Definition pure {A} (a : A) : Py A := fun s => (Returned a, s).

Definition raise {A} (msg : string) : Py A := fun s => (Raised msg, s).

Definition seq {A B} (m : Py A) (k : A -> Py B) : Py B :=
  fun s => match m s with
           | (Returned a, s') => k a s'
           | (Raised e, s') => (Raised e, s')
           end.

(** [try: body except Exception as e: handler] *)
Definition try_except {A} (body : Py A) (handler : string -> Py A) : Py A :=
  fun s => match body s with
           | (Returned a, s') => (Returned a, s')
           | (Raised e, s') => handler e s'
           end.

Definition emit (e : Effect) : Py unit :=
  fun s => (Returned tt, mkSys (remote s) (e :: trace s)).

(** Running a library call on the outside world. *)
Definition call {A} (f : Remote -> Outcome A * Remote) : Py A :=
  fun s => let (r, m) := f (remote s) in (r, mkSys m (trace s)).

(** [print(line)] *)
Definition print_line (line : string) : Py unit := emit (Out line).

(** [time.sleep(secs)] *)
Definition time_sleep (secs : nat) : Py unit := emit (Sleep secs).

(** [ts.pro_bar(ts_code=code, ...)] *)
Definition ts_pro_bar (code : string) : Py (option Frame) :=
  seq (emit (ProBar code)) (fun _ => call (pro_bar code)).

(** [df.to_csv(path, index=False)]: on [None] the attribute lookup fails
    before anything is written. *)
Definition df_to_csv (df : option Frame) (path : string) : Py unit :=
  match df with
  | Some f => seq (emit (ToCsv path f)) (fun _ => call (to_csv f path))
  | None => raise "'NoneType' object has no attribute 'to_csv'"
  end.

(** The three messages and the file name, as the f-strings build them. *)
Definition try_line (code : string) : string :=
  ">>> try to get: " ++ code.
Definition success_line (code : string) : string :=
  ">>> get " ++ code ++ " success!!".
Definition error_line (e : string) : string :=
  "[ERROR] " ++ e.
Definition csv_path (code : string) : string :=
  "../data/a-shares/" ++ code ++ ".csv".

(** The body of the [for] loop, lines 21-31. *)
Definition download_one (code : string) : Py unit :=
  seq (try_except
         (seq (print_line (try_line code)) (fun _ =>
          seq (ts_pro_bar code) (fun df =>
          seq (df_to_csv df (csv_path code)) (fun _ =>
          print_line (success_line code)))))
         (fun e => print_line (error_line e)))
      (fun _ => time_sleep 1).

(** [for code in codes: body] *)
Fixpoint for_each (codes : list string) (body : string -> Py unit) : Py unit :=
  match codes with
  | nil => pure tt
  | cons code rest => seq (body code) (fun _ => for_each rest body)
  end.

(** The whole script. *)
Definition main : Py unit :=
  seq (call stock_basic) (fun codes => for_each codes download_one).

(** ** Reading a trace *)

(** The effects in the order they happened. *)
Definition history (s : Sys) : list Effect := List.rev (trace s).

Definition out_lines (t : list Effect) : list string :=
  List.flat_map (fun e => match e with Out l => cons l nil | _ => nil end) t.

Definition fetched (t : list Effect) : list string :=
  List.flat_map (fun e => match e with ProBar c => cons c nil | _ => nil end)
                t.

Definition written (t : list Effect) : list string :=
  List.flat_map (fun e => match e with ToCsv p _ => cons p nil | _ => nil end)
                t.

Definition seconds_slept (t : list Effect) : nat :=
  List.fold_right (fun e n => match e with Sleep k => k + n | _ => n end)%nat
                  0%nat t.

(** One pass of the loop body for [code], as a list of effects in the
    order they happen: the four ways it can go. *)
Inductive Attempt (code : string) : list Effect -> Prop :=
| FetchRaised e :
    Attempt code
      (cons (Out (try_line code)) (cons (ProBar code)
       (cons (Out (error_line e)) (cons (Sleep 1) nil))))
| FetchedNone :
    Attempt code
      (cons (Out (try_line code)) (cons (ProBar code)
       (cons (Out (error_line "'NoneType' object has no attribute 'to_csv'"))
       (cons (Sleep 1) nil))))
| WriteRaised df e :
    Attempt code
      (cons (Out (try_line code)) (cons (ProBar code)
       (cons (ToCsv (csv_path code) df)
       (cons (Out (error_line e)) (cons (Sleep 1) nil)))))
| Saved df :
    Attempt code
      (cons (Out (try_line code)) (cons (ProBar code)
       (cons (ToCsv (csv_path code) df)
       (cons (Out (success_line code)) (cons (Sleep 1) nil))))).

End Script.

Arguments Out {Frame} line.
Arguments Sleep {Frame} secs.
Arguments ProBar {Frame} code.
Arguments ToCsv {Frame} path df.
Arguments mkSys {Remote Frame} remote trace.
Arguments remote {Remote Frame} s.
Arguments trace {Remote Frame} s.
Arguments history {Remote Frame} s.
Arguments out_lines {Frame} t.
Arguments fetched {Frame} t.
Arguments written {Frame} t.
Arguments seconds_slept {Frame} t.
Arguments Attempt {Frame} code _.
Arguments FetchRaised {Frame} code e.
Arguments FetchedNone {Frame} code.
Arguments WriteRaised {Frame} code df e.
Arguments Saved {Frame} code df.

(** ** A sample outside world *)

(** A service that lists two instruments, has a table for the first one
    only, and a disk that takes every file.  The outside state counts the
    calls made. *)
Definition sample_stock_basic (n : nat)
  : Outcome (list string) * nat :=
  (Returned (cons "000001.SZ" (cons "000002.SZ" nil)), S n).

Definition sample_pro_bar (code : string) (n : nat)
  : Outcome (option nat) * nat :=
  if String.eqb code "000001.SZ" then (Returned (Some 7%nat), S n)
  else (Raised "timed out", S n).

Definition sample_to_csv (df : nat) (path : string) (n : nat)
  : Outcome unit * nat :=
  (Returned tt, S n).

(** A service that is down. *)
Definition down_stock_basic (n : nat) : Outcome (list string) * nat :=
  (Raised "connection refused", n).

Definition fresh : Sys nat nat := mkSys 0%nat nil.

End Download.

(** * Properties *)

(** ** Stepping the callbacks *)

Ltac unfold_calls :=
  cbv [next notify_order log bind ret dataclose datetime_date print
       get_order set_order get_position len_self get_bar_executed
       set_bar_executed buy sell submit order_bool position_bool
       status_in status_eqb existsb isbuy issell printed placed advance
       broker_update terminal logged with_self look].

Ltac open_world w :=
  let s := fresh "s" in
  destruct w as [? ? ? ? ? ? s ?]; destruct s as [? ?]; cbn in *; subst.

Lemma new_requests_app (l : list Order) (w w' : World) :
  requests w' = l ++ requests w -> new_requests w w' = l.
Proof.
  intros E. unfold new_requests. rewrite E, length_app.
  replace (length l + length (requests w) - length (requests w))%nat
    with (length l) by lia.
  rewrite firstn_app, Nat.sub_diag, firstn_all. cbn. apply app_nil_r.
Qed.

(** *** Looking back from the current bar *)

Lemma py_index_nonneg {A : Type} (l : list A) (k : nat) :
  (k < length l)%nat -> py_index l (Z.of_nat k) = nth_error l k.
Proof.
  intros H. unfold py_index.
  destruct (Z.leb_spec 0 (Z.of_nat k)); [| lia].
  destruct (Z.ltb_spec (Z.of_nat k) (Z.of_nat (length l))); [| lia].
  cbn. now rewrite Nat2Z.id.
Qed.

Lemma py_index_last {A : Type} (l : list A) (x : A) :
  py_index (l ++ [x]) (-1) = Some x.
Proof.
  unfold py_index. rewrite length_app. cbn [length].
  destruct (Z.ltb_spec (-1) (Z.of_nat (length l + 1))); [| lia].
  destruct (Z.leb_spec (- Z.of_nat (length l + 1)) (-1)); [| lia].
  cbn [Z.leb Z.compare andb Z.ltb].
  replace (Z.to_nat (Z.of_nat (length l + 1) + -1)) with (length l) by lia.
  now rewrite nth_error_app2, Nat.sub_diag by lia.
Qed.

Lemma py_index_empty {A : Type} (k : Z) : py_index (@nil A) k = None.
Proof.
  unfold py_index. cbn [length Z.of_nat Z.opp].
  destruct (Z.leb_spec 0 k), (Z.ltb_spec k 0); cbn; try reflexivity; lia.
Qed.

(** With [j] bars delivered before it, a bar is found [j] steps back,
    whatever is loaded ahead. *)
Lemma getitem_back (newer older ahead_ : list Bar) (b : Bar) :
  getitem (newer ++ b :: older) ahead_ (- Z.of_nat (length newer) + 0)
  = Some b.
Proof.
  unfold getitem, line_array, line_idx.
  rewrite length_app. cbn [length].
  replace (Z.of_nat (length newer + S (length older)) - 1
           + (- Z.of_nat (length newer) + 0))
    with (Z.of_nat (length older)) by lia.
  rewrite py_index_nonneg.
  - rewrite rev_app_distr. cbn [rev]. rewrite <- !app_assoc.
    rewrite nth_error_app2 by (rewrite length_rev; lia).
    rewrite length_rev, Nat.sub_diag. reflexivity.
  - rewrite !length_app, length_rev, length_app. cbn [length]. lia.
Qed.

Lemma look_current (w : World) (b : Bar) (h : list Bar) :
  datas0 w = b :: h -> look w 0 = Some b.
Proof. intros E. unfold look. rewrite E. apply (getitem_back [] h). Qed.

Lemma look_previous (w : World) (b b1 : Bar) (h : list Bar) :
  datas0 w = b :: b1 :: h -> look w (-1) = Some b1.
Proof. intros E. unfold look. rewrite E. apply (getitem_back [b] h). Qed.

Lemma look_before (w : World) (b b1 b2 : Bar) (h : list Bar) :
  datas0 w = b :: b1 :: b2 :: h -> look w (-2) = Some b2.
Proof. intros E. unfold look. rewrite E. apply (getitem_back [b; b1] h). Qed.

(** The current bar is missing only from an empty buffer. *)
Lemma look_current_none (w : World) :
  look w 0 = None <-> datas0 w = [] /\ ahead w = [].
Proof.
  unfold look. split.
  - destruct (datas0 w) as [| b h] eqn:Ed.
    + destruct (ahead w) as [| a l] using rev_ind; [auto |].
      unfold getitem, line_array, line_idx. cbn [rev app length].
      change (Z.of_nat 0 - 1 + 0) with (-1).
      now rewrite py_index_last.
    + intros H. assert (G := getitem_back [] h (ahead w) b).
      cbn [app length Z.of_nat Z.opp Z.add] in G. congruence.
  - intros [-> ->]. apply py_index_empty.
Qed.

Lemma py_index_none {A : Type} (l : list A) (k : Z) :
  py_index l k = None ->
  k < - Z.of_nat (length l) \/ Z.of_nat (length l) <= k.
Proof.
  unfold py_index.
  destruct (Z.leb_spec 0 k) as [H0 | H0],
           (Z.ltb_spec k (Z.of_nat (length l))) as [H1 | H1];
    cbn [andb]; try lia.
  - intros E. apply nth_error_None in E. lia.
  - destruct (Z.leb_spec (- Z.of_nat (length l)) k) as [H2 | H2],
             (Z.ltb_spec k 0) as [H3 | H3];
      cbn [andb]; try lia.
    intros E. apply nth_error_None in E. lia.
Qed.

(** One step back from a current bar there is always a bar. *)
Lemma look_previous_some (w : World) :
  datas0 w <> [] -> exists b1, look w (-1) = Some b1.
Proof.
  intros Hd. destruct (look w (-1)) as [b1 |] eqn:E; [now exists b1 |].
  exfalso. unfold look, getitem, line_array, line_idx in E.
  apply py_index_none in E. rewrite length_app, length_rev in E.
  destruct (datas0 w); [contradiction | cbn [length] in E; lia].
Qed.

(** Two steps back from a current bar the look-up fails only when that
    bar is the whole buffer. *)
Lemma look_before_none (w : World) (b : Bar) (h : list Bar) :
  datas0 w = b :: h -> look w (-2) = None -> h = [] /\ ahead w = [].
Proof.
  intros Ed E. unfold look, getitem, line_array, line_idx in E.
  apply py_index_none in E. rewrite length_app, length_rev, Ed in E.
  cbn [length] in E.
  destruct h; [| cbn [length] in E; lia].
  destruct (ahead w); [auto | cbn [length] in E; lia].
Qed.

(** A bar that is the whole buffer is its own predecessor. *)
Lemma look_alone (w : World) (b : Bar) :
  datas0 w = [b] -> ahead w = [] -> look w (-1) = Some b.
Proof. intros Ed Ea. unfold look. now rewrite Ed, Ea. Qed.

Lemma py_index_last_but_one {A : Type} (l : list A) (x y : A) :
  py_index (l ++ [x; y]) (-2) = Some x.
Proof.
  unfold py_index. rewrite length_app. cbn [length].
  destruct (Z.ltb_spec (-2) (Z.of_nat (length l + 2))); [| lia].
  destruct (Z.leb_spec (- Z.of_nat (length l + 2)) (-2)); [| lia].
  cbn [Z.leb Z.compare andb Z.ltb].
  replace (Z.to_nat (Z.of_nat (length l + 2) + -2)) with (length l) by lia.
  now rewrite nth_error_app2, Nat.sub_diag by lia.
Qed.

(** *** [next], path by path *)

Ltac reduce_fields :=
  cbn [datas0 ahead position stake requests open_orders self stdout order
       bar_executed close datetime negb andb orb].

(** The body of [next] as one decision tree over the look-ups. *)
Lemma next_eq (w : World) :
  next w =
  match look w 0 with
  | None => Raise IndexError w
  | Some b =>
      let w1 := printed (datetime b, MsgClose (close b)) w in
      match order (self w) with
      | Some _ => Ok tt w1
      | None =>
          if position w =? 0 then
            match look w (-1) with
            | None => Raise IndexError w1
            | Some b1 =>
                if close b <? close b1 then
                  match look w (-2) with
                  | None => Raise IndexError w1
                  | Some b2 =>
                      if close b1 <? close b2 then
                        Ok tt (placed Buy
                                 (printed (datetime b, MsgBuyCreate (close b))
                                    w1))
                      else Ok tt w1
                  end
                else Ok tt w1
            end
          else
            match bar_executed (self w) with
            | None => Raise AttributeError w1
            | Some i =>
                if Z.of_nat (length (datas0 w)) >=? i + 5 then
                  Ok tt (placed Sell
                           (printed (datetime b, MsgSellCreate (close b))
                              w1))
                else Ok tt w1
            end
      end
  end.
Proof.
  destruct w as [d a p st r oo [o e] out]. unfold_calls. reduce_fields.
  repeat match goal with
         | H : getitem ?x ?y ?z = _ |- context [getitem ?x ?y ?z] =>
             rewrite H; reduce_fields
         | |- context [match getitem ?x ?y ?z with _ => _ end] =>
             destruct (getitem x y z) eqn:?; reduce_fields
         | |- context [match o with _ => _ end] => destruct o; reduce_fields
         | |- context [match e with _ => _ end] => destruct e; reduce_fields
         | H : (?x =? ?y) = _ |- context [?x =? ?y] =>
             rewrite H; reduce_fields
         | H : (?x <? ?y) = _ |- context [?x <? ?y] =>
             rewrite H; reduce_fields
         | H : (?x >=? ?y) = _ |- context [?x >=? ?y] =>
             rewrite H; reduce_fields
         | |- context [?x =? ?y] => destruct (x =? y) eqn:?; reduce_fields
         | |- context [?x <? ?y] => destruct (x <? y) eqn:?; reduce_fields
         | |- context [?x >=? ?y] => destruct (x >=? y) eqn:?; reduce_fields
         end; reflexivity.
Qed.

Ltac decide_tests :=
  repeat match goal with
         | |- context [?x <? ?y] =>
             destruct (Z.ltb_spec x y); try lia
         | |- context [?x >=? ?y] =>
             destruct (Z.geb_spec x y); try lia
         | |- context [?x =? ?y] =>
             destruct (Z.eqb_spec x y); try lia; try contradiction
         end.

Lemma next_no_bar (w : World) :
  datas0 w = [] -> ahead w = [] -> next w = Raise IndexError w.
Proof.
  intros Ed Ea. rewrite next_eq.
  now rewrite (proj2 (look_current_none w) (conj Ed Ea)).
Qed.

(** [Flat] with all three look-ups answered: the two comparisons decide. *)
Lemma next_flat_looks (w : World) (b b1 b2 : Bar) :
  Flat w -> look w 0 = Some b -> look w (-1) = Some b1 ->
  look w (-2) = Some b2 ->
  next w = if (close b <? close b1) && (close b1 <? close b2)
           then Ok tt (placed Buy
                         (printed (datetime b, MsgBuyCreate (close b))
                            (printed (datetime b, MsgClose (close b)) w)))
           else Ok tt (printed (datetime b, MsgClose (close b)) w).
Proof.
  intros [Eo Ep] E0 E1 E2. rewrite next_eq, E0, E1, E2, Eo, Ep.
  cbn [Z.eqb].
  now destruct (close b <? close b1), (close b1 <? close b2).
Qed.

Lemma next_pending (w : World) (o : Order) (b : Bar) (h : list Bar) :
  order (self w) = Some o -> datas0 w = b :: h ->
  next w = Ok tt (printed (datetime b, MsgClose (close b)) w).
Proof.
  intros Eo Ed. now rewrite next_eq, (look_current w b h Ed), Eo.
Qed.

Lemma next_flat_not_lower (w : World) (b b1 : Bar) (h : list Bar) :
  Flat w -> datas0 w = b :: b1 :: h -> ~ close b < close b1 ->
  next w = Ok tt (printed (datetime b, MsgClose (close b)) w).
Proof.
  intros [Eo Ep] Ed Hc.
  rewrite next_eq, (look_current w b _ Ed), (look_previous w b b1 h Ed),
    Eo, Ep.
  cbn [Z.eqb]. now decide_tests.
Qed.

Lemma next_flat_one_step_down (w : World) (b b1 b2 : Bar) (h : list Bar) :
  Flat w -> datas0 w = b :: b1 :: b2 :: h ->
  close b < close b1 -> ~ close b1 < close b2 ->
  next w = Ok tt (printed (datetime b, MsgClose (close b)) w).
Proof.
  intros [Eo Ep] Ed Hc Hc'.
  rewrite next_eq, (look_current w b _ Ed), (look_previous w b b1 _ Ed),
    (look_before w b b1 b2 h Ed), Eo, Ep.
  cbn [Z.eqb]. now decide_tests.
Qed.

Lemma next_flat_buy (w : World) (b b1 b2 : Bar) (h : list Bar) :
  Flat w -> datas0 w = b :: b1 :: b2 :: h ->
  close b < close b1 -> close b1 < close b2 ->
  next w = Ok tt (placed Buy
                    (printed (datetime b, MsgBuyCreate (close b))
                       (printed (datetime b, MsgClose (close b)) w))).
Proof.
  intros [Eo Ep] Ed Hc Hc'.
  rewrite next_eq, (look_current w b _ Ed), (look_previous w b b1 _ Ed),
    (look_before w b b1 b2 h Ed), Eo, Ep.
  cbn [Z.eqb]. now decide_tests.
Qed.

Lemma next_long_unset (w : World) (b : Bar) (h : list Bar) :
  Long w -> datas0 w = b :: h -> bar_executed (self w) = None ->
  next w = Raise AttributeError
             (printed (datetime b, MsgClose (close b)) w).
Proof.
  intros [Eo Ep] Ed Ee.
  rewrite next_eq, (look_current w b h Ed), Eo, Ee. now decide_tests.
Qed.

Lemma next_long_hold (w : World) (b : Bar) (h : list Bar) (i : Z) :
  Long w -> datas0 w = b :: h -> bar_executed (self w) = Some i ->
  Z.of_nat (length (datas0 w)) < i + 5 ->
  next w = Ok tt (printed (datetime b, MsgClose (close b)) w).
Proof.
  intros [Eo Ep] Ed Ee Hn.
  rewrite next_eq, (look_current w b h Ed), Eo, Ee. now decide_tests.
Qed.

Lemma next_long_sell (w : World) (b : Bar) (h : list Bar) (i : Z) :
  Long w -> datas0 w = b :: h -> bar_executed (self w) = Some i ->
  i + 5 <= Z.of_nat (length (datas0 w)) ->
  next w = Ok tt (placed Sell
                    (printed (datetime b, MsgSellCreate (close b))
                       (printed (datetime b, MsgClose (close b)) w))).
Proof.
  intros [Eo Ep] Ed Ee Hn.
  rewrite next_eq, (look_current w b h Ed), Eo, Ee. now decide_tests.
Qed.

(** *** Every call follows one path *)

Lemma next_view (w : World) : NextCase w (next w).
Proof.
  rewrite next_eq.
  destruct (look w 0) as [b |] eqn:E0; [| now apply NextNoBar].
  cbv zeta.
  destruct (order (self w)) as [o |] eqn:Eo;
    [now apply (NextPending w o b) |].
  destruct (Z.eqb_spec (position w) 0) as [Ep | Ep].
  - assert (F : Flat w) by (split; assumption).
    destruct (look w (-1)) as [b1 |] eqn:E1;
      [| now apply (NextFlatNoPrevious w b)].
    destruct (Z.ltb_spec (close b) (close b1)) as [Hc | Hc];
      [| now apply (NextFlatNotLower w b b1)].
    destruct (look w (-2)) as [b2 |] eqn:E2;
      [| now apply (NextFlatNoBefore w b b1)].
    destruct (Z.ltb_spec (close b1) (close b2)) as [Hc' | Hc'].
    + now apply (NextFlatBuy w b b1 b2).
    + now apply (NextFlatOneStepDown w b b1 b2).
  - assert (L : Long w) by (split; assumption).
    destruct (bar_executed (self w)) as [i |] eqn:Ee;
      [| now apply (NextLongUnset w b)].
    destruct (Z.geb_spec (Z.of_nat (length (datas0 w))) (i + 5)) as [Hn | Hn].
    + now apply (NextLongSell w b i).
    + now apply (NextLongHold w b i).
Qed.

(** Every way a call of [next] can end: it only logs, or it is in [Flat]
    and places a buy, or it is in [Long] with [bar_executed] assigned and
    places a sell. *)
Lemma next_effect (w : World) :
  exists ls,
    world_of (next w) = logged ls w \/
    (Flat w /\ raised (next w) = None /\
     world_of (next w) = placed Buy (logged ls w)) \/
    (Long w /\ bar_executed (self w) <> None /\ raised (next w) = None /\
     world_of (next w) = placed Sell (logged ls w)).
Proof.
  destruct (next_view w) as
    [E0 | o b Eo E0 | b F E0 E1 | b b1 F E0 E1 Hc | b b1 F E0 E1 Hc E2
     | b b1 b2 F E0 E1 Hc E2 Hc' | b b1 b2 F E0 E1 Hc E2 Hc'
     | b L E0 Ee | b i L E0 Ee Hn | b i L E0 Ee Hn];
    cbn [world_of raised].
  1: exists []; left; now destruct w.
  6: { eexists [_; _]. right; left. repeat split; apply F. }
  8: { eexists [_; _]. right; right.
       repeat split; try apply L. congruence. }
  all: eexists [_]; left; reflexivity.
Qed.

(** With an order pending [next] at most logs. *)
Lemma next_pending_logs (w : World) (o : Order) :
  order (self w) = Some o -> exists ls, world_of (next w) = logged ls w.
Proof.
  intros Eo.
  destruct (next_view w) as
    [E0 | o' b Eo' E0 | b [Fo _] | b b1 [Fo _] | b b1 [Fo _]
     | b b1 b2 [Fo _] | b b1 b2 [Fo _] | b [Fo _] | b i [Fo _] | b i [Fo _]];
    try congruence; cbn [world_of].
  - exists []. now destruct w.
  - now eexists [_].
Qed.

(** [next] raises [AttributeError] only in [Long] with [bar_executed]
    never assigned. *)
Lemma next_attribute_error (w : World) :
  raised (next w) = Some AttributeError ->
  Long w /\ bar_executed (self w) = None.
Proof.
  destruct (next_view w); cbn [raised]; try discriminate. auto.
Qed.

(** *** [notify_order], case by case *)

Lemma notify_informational (o : OrderView) (w : World) :
  status o = Submitted \/ status o = Accepted ->
  notify_order o w = Ok tt w.
Proof.
  intros [E | E]; unfold notify_order; rewrite E; reflexivity.
Qed.

Lemma notify_no_current (o : OrderView) (w : World) :
  terminal (status o) = true -> look w 0 = None ->
  notify_order o w = Raise IndexError w.
Proof.
  intros T E. destruct o as [[r sd sz] st p].
  destruct w as [d a ps sk rq oo [od e] out]. unfold look in E.
  cbn in T. cbn [datas0 ahead] in E.
  destruct st, sd; try discriminate; unfold_calls;
    cbn -[getitem Z.of_nat]; rewrite E; reflexivity.
Qed.

Lemma notify_completed_at (o : OrderView) (w : World) (b : Bar) :
  status o = Completed -> look w 0 = Some b ->
  notify_order o w =
  Ok tt (with_self (mkStrategy None (Some (Z.of_nat (length (datas0 w)))))
           (printed (datetime b,
                     match side (view_order o) with
                     | Buy => MsgBuyExecuted (executed_price o)
                     | Sell => MsgSellExecuted (executed_price o)
                     end) w)).
Proof.
  intros T E. destruct o as [[r sd sz] st p].
  destruct w as [d a ps sk rq oo [od e] out]. unfold look in E.
  cbn in T. cbn [datas0 ahead] in E.
  subst st.
  destruct sd; unfold_calls;
    cbn -[getitem Z.of_nat]; rewrite E; reflexivity.
Qed.

Lemma notify_failed_at (o : OrderView) (w : World) (b : Bar) :
  status o = Canceled \/ status o = Margin \/ status o = Rejected ->
  look w 0 = Some b ->
  notify_order o w =
  Ok tt (with_self (mkStrategy None (bar_executed (self w)))
           (printed (datetime b, MsgOrderCanceledMarginRejected) w)).
Proof.
  intros T E. destruct o as [[r sd sz] st p].
  destruct w as [d a ps sk rq oo [od e] out]. unfold look in E.
  cbn in T. cbn [datas0 ahead] in E.
  destruct T as [T | [T | T]]; subst st;
    unfold_calls;
    cbn -[getitem Z.of_nat]; rewrite E; reflexivity.
Qed.

Lemma notify_no_bar (o : OrderView) (w : World) :
  terminal (status o) = true -> datas0 w = [] -> ahead w = [] ->
  notify_order o w = Raise IndexError w.
Proof.
  intros T Ed Ea. apply notify_no_current; [exact T |].
  now apply look_current_none.
Qed.

Lemma notify_completed (o : OrderView) (w : World) (b : Bar) (h : list Bar) :
  status o = Completed -> datas0 w = b :: h ->
  notify_order o w =
  Ok tt (with_self (mkStrategy None (Some (Z.of_nat (length (datas0 w)))))
           (printed (datetime b,
                     match side (view_order o) with
                     | Buy => MsgBuyExecuted (executed_price o)
                     | Sell => MsgSellExecuted (executed_price o)
                     end) w)).
Proof.
  intros E Ed. apply notify_completed_at; [exact E |].
  exact (look_current w b h Ed).
Qed.

Lemma notify_failed (o : OrderView) (w : World) (b : Bar) (h : list Bar) :
  status o = Canceled \/ status o = Margin \/ status o = Rejected ->
  datas0 w = b :: h ->
  notify_order o w =
  Ok tt (with_self (mkStrategy None (bar_executed (self w)))
           (printed (datetime b, MsgOrderCanceledMarginRejected) w)).
Proof.
  intros E Ed. apply notify_failed_at; [exact E |].
  exact (look_current w b h Ed).
Qed.

Lemma notify_view (o : OrderView) (w : World) :
  NotifyCase o w (notify_order o w).
Proof.
  destruct (status o) eqn:Es.
  1,2: rewrite notify_informational by auto;
       apply NotifyInformational; auto.
  all: destruct (look w 0) as [b |] eqn:E0;
    [| rewrite notify_no_current by (rewrite ?Es; auto);
       apply NotifyNoBar; rewrite ?Es; auto].
  - rewrite (notify_completed_at o w b Es E0).
    now apply (NotifyCompleted o w b).
  - rewrite (notify_failed_at o w b) by auto.
    apply (NotifyFailed o w b); auto.
  - rewrite (notify_failed_at o w b) by auto.
    apply (NotifyFailed o w b); auto.
  - rewrite (notify_failed_at o w b) by auto.
    apply (NotifyFailed o w b); auto.
Qed.

(** *** What a call issued *)

Lemma issued_logged (m : M unit) (w : World) (ls : list (Z * Msg)) :
  world_of (m w) = logged ls w -> issued m w = [].
Proof.
  intros E. unfold issued. rewrite E.
  now rewrite (new_requests_app [] w (logged ls w)).
Qed.

Lemma issued_placed (m : M unit) (w : World) (ls : list (Z * Msg)) (s : Side) :
  world_of (m w) = placed s (logged ls w) -> issued m w = [s].
Proof.
  intros E. unfold issued. rewrite E.
  now rewrite (new_requests_app
                 [mkOrder (length (requests w)) s (stake w)] w
                 (placed s (logged ls w))).
Qed.

Lemma issued_printed (m : M unit) (w : World) (line : Z * Msg) :
  world_of (m w) = printed line w -> issued m w = [].
Proof. intros E. now apply (issued_logged m w [line]). Qed.

(** [next] issues nothing, one buy or one sell. *)
Lemma issued_next_cases (w : World) :
  issued next w = [] \/
  (issued next w = [Buy] /\ Flat w /\ raised (next w) = None) \/
  (issued next w = [Sell] /\ Long w /\ bar_executed (self w) <> None /\
   raised (next w) = None).
Proof.
  destruct (next_effect w) as [ls [E | [(F & R & E) | (L & B & R & E)]]].
  - left. now apply (issued_logged next w ls).
  - right; left. split; [now apply (issued_placed next w ls) | now split].
  - right; right. split; [now apply (issued_placed next w ls) | easy].
Qed.

(** *** The invariant of a run *)

Lemma started_consistent (w : World) : started w -> consistent w.
Proof.
  intros (Es & Ep & Eo & Hs). unfold consistent. rewrite Es, Ep, Eo. cbn.
  repeat split; auto; intros C; now contradiction C.
Qed.

Lemma consistent_advance (b : Bar) (w : World) :
  consistent w -> consistent (advance b w).
Proof. intros C. exact C. Qed.

Lemma consistent_next (w : World) :
  consistent w -> consistent (world_of (next w)).
Proof.
  intros C.
  destruct (next_effect w) as [ls [E | [(F & R & E) | (L & B & R & E)]]];
    rewrite E; [exact C | |].
  - destruct F as [Fo Fp]. destruct C as (Hs & Ho & Hp & Hb).
    rewrite Fo in Ho. unfold consistent, placed, logged. cbn.
    rewrite Ho. repeat split; auto.
  - destruct L as [Lo Lp]. destruct C as (Hs & Ho & Hp & Hb).
    rewrite Lo in Ho, Hp. unfold consistent, placed, logged. cbn.
    rewrite Ho. repeat split; auto. now destruct Hp.
Qed.

Lemma find_open_single (r : nat) (o o' : Order) :
  find_open r [o] = Some o' -> o' = o /\ ref o = r.
Proof.
  unfold find_open. cbn. destruct (Nat.eqb_spec (ref o) r); [| discriminate].
  intros [= <-]. now split.
Qed.

Lemma remove_open_single (o : Order) : remove_open (ref o) [o] = [].
Proof. unfold remove_open. cbn. now rewrite Nat.eqb_refl. Qed.

(** In a consistent world the only order the engine can report on is the
    strategy's pending one. *)
Lemma deliverable_order (w : World) (r : nat) (o : Order) :
  consistent w -> find_open r (open_orders w) = Some o ->
  order (self w) = Some o /\ open_orders w = [o] /\ ref o = r.
Proof.
  intros (Hs & Ho & Hp & Hb) F. rewrite Ho in F.
  destruct (order (self w)) as [o' |]; [| discriminate].
  apply find_open_single in F. destruct F as [-> E]. now rewrite Ho.
Qed.

Lemma consistent_deliver (ev : Event) (w w' : World) :
  consistent w -> deliver ev w = Some (Ok tt w') -> consistent w'.
Proof.
  intros C D. destruct ev as [b | r st p]; unfold deliver in D.
  - injection D as D.
    assert (C' := consistent_next (advance b w) (consistent_advance b w C)).
    now rewrite D in C'.
  - destruct (find_open r (open_orders w)) as [o |] eqn:F; [| discriminate].
    injection D as D.
    destruct (deliverable_order w r o C F) as (Eo & Eopen & _).
    destruct C as (Hs & _ & Hp & Hb). rewrite Eo in Hp.
    destruct Hp as [Hsz Hpos].
    destruct (notify_view (mkView o st p) (broker_update o st w))
      as [E | T E0 | b E E0 | b E E0]; try discriminate;
      injection D as <-; cbn [status] in E.
    + unfold consistent, broker_update.
      destruct E as [-> | ->]; cbn; rewrite Eo, Eopen; repeat split; auto.
    + subst st. unfold consistent. cbn.
      rewrite Eopen, remove_open_single. unfold signed_size.
      repeat split; auto; try discriminate.
      destruct (side o); lia.
    + unfold consistent.
      destruct E as [-> | [-> | ->]]; cbn;
        rewrite Eopen, remove_open_single;
        repeat split; auto; destruct (side o); auto.
Qed.

Lemma consistent_run (evs : list Event) (w w' : World) :
  consistent w -> run evs w = Some w' -> consistent w'.
Proof.
  revert w. induction evs as [| ev evs IH]; intros w C R; cbn in R.
  - now injection R as <-.
  - destruct (deliver ev w) as [[[] w1 | e w1] |] eqn:D; try discriminate.
    apply (IH w1); [| exact R]. now apply (consistent_deliver ev w w1).
Qed.

Lemma reachable_consistent (w : World) : reachable w -> consistent w.
Proof.
  intros (w0 & evs & S & R).
  apply (consistent_run evs w0 w); [now apply started_consistent | exact R].
Qed.

Lemma reachable_two_bars : reachable two_bars.
Proof.
  exists two_bars, []. split; [| reflexivity].
  unfold started. cbn. repeat split; reflexivity.
Defined.

Lemma reachable_buy_pending : reachable buy_pending.
Proof.
  exists two_bars, [EvBar (mkBar 2 8)]. split; [| reflexivity].
  unfold started. cbn. repeat split; reflexivity.
Defined.

Lemma reachable_holding : reachable holding.
Proof.
  exists two_bars, [EvBar (mkBar 2 8); EvOrder 0 Completed 8].
  split; [| reflexivity].
  unfold started. cbn. repeat split; reflexivity.
Defined.

(** ** Two runs, step by step *)

(** Closes 10, 9, 8: the buy goes out on the third bar; it completes at a
    bar count of 3; the bars up to a count of 7 pass quietly and the bar
    that brings the count to 8 sends the sell, whose completion leaves the
    book flat and [bar_executed] at 8. *)
Example round_trip :
  run [EvBar (mkBar 2 8); EvOrder 0 Submitted 0; EvOrder 0 Accepted 0;
       EvOrder 0 Completed 8;
       EvBar (mkBar 3 7); EvBar (mkBar 4 7); EvBar (mkBar 5 7);
       EvBar (mkBar 6 7); EvBar (mkBar 7 7); EvOrder 1 Completed 7]
      two_bars
  = Some (mkWorld
            [mkBar 7 7; mkBar 6 7; mkBar 5 7; mkBar 4 7; mkBar 3 7;
             mkBar 2 8; mkBar 1 9; mkBar 0 10]
            [] 0 1 [mkOrder 1 Sell 1; mkOrder 0 Buy 1] []
            (mkStrategy None (Some 8))
            [(7, MsgSellExecuted 7); (7, MsgSellCreate 7); (7, MsgClose 7);
             (6, MsgClose 7); (5, MsgClose 7); (4, MsgClose 7);
             (3, MsgClose 7); (2, MsgBuyExecuted 8); (2, MsgBuyCreate 8);
             (2, MsgClose 8)]).
Proof. reflexivity. Qed.

(** The same entry refused for lack of cash: back to a flat book with
    [bar_executed] still unset, and a further two-step decline sends a
    fresh buy. *)
Example margin_then_retry :
  run [EvBar (mkBar 2 8); EvOrder 0 Margin 0; EvBar (mkBar 3 7)] two_bars
  = Some (let o := mkOrder 1 Buy 1 in
          mkWorld [mkBar 3 7; mkBar 2 8; mkBar 1 9; mkBar 0 10]
            [] 0 1 [o; mkOrder 0 Buy 1] [o] (mkStrategy (Some o) None)
            [(3, MsgBuyCreate 7); (3, MsgClose 7);
             (2, MsgOrderCanceledMarginRejected); (2, MsgBuyCreate 8);
             (2, MsgClose 8)]).
Proof. reflexivity. Qed.

(** Outside the worlds a run can reach the sell branch can read the
    attribute unset: a position held by a strategy fresh from [__init__]. *)
Example unset_bar_executed_raises :
  raised (next (mkWorld [mkBar 0 10] [] 1 1 [] [] init []))
  = Some AttributeError.
Proof. reflexivity. Qed.

(** ** The claims *)

(** C8.  While an order is pending -- a buy ([EnteringLong]) or a sell
    ([ExitingLong]) -- [next] does nothing to the strategy: it issues no
    order and leaves the pending order, [bar_executed], the position and
    the broker's books as they were, whatever the closes and the bar count
    are; with a current bar in the feed it returns normally, having written
    only the Close log line. *)
Theorem pending_next_is_noop (w : World) :
  EnteringLong w \/ ExitingLong w ->
  issued next w = [] /\
  self (world_of (next w)) = self w /\
  position (world_of (next w)) = position w /\
  open_orders (world_of (next w)) = open_orders w /\
  requests (world_of (next w)) = requests w /\
  (forall b h, datas0 w = b :: h ->
     next w = Ok tt (printed (datetime b, MsgClose (close b)) w)).
Proof.
  intros P.
  assert (exists o, order (self w) = Some o) as [o Eo]
    by (destruct P as [(o & Eo & _) | (o & Eo & _)]; now exists o).
  destruct (next_pending_logs w o Eo) as [ls E].
  split; [exact (issued_logged next w ls E) |].
  rewrite E. cbn. repeat split.
  intros b h Ed. exact (next_pending w o b h Eo Ed).
Qed.

Lemma pending_next_is_noop_witness :
  ExitingLong sell_pending /\
  issued next sell_pending = [] /\
  self (world_of (next sell_pending)) = self sell_pending /\
  issued next (advance (mkBar 3 7) buy_pending) = [].
Proof.
  assert (ExitingLong sell_pending) as X
    by (exists (mkOrder 1 Sell 1); split; reflexivity).
  assert (EnteringLong (advance (mkBar 3 7) buy_pending)) as N
    by (exists (mkOrder 0 Buy 1); split; reflexivity).
  split; [exact X |].
  destruct (pending_next_is_noop sell_pending (or_intror X)) as (I & S & _).
  destruct (pending_next_is_noop _ (or_introl N)) as (I' & _).
  split; [exact I | split; [exact S | exact I']].
Defined.

(** C1.  Whenever [self.order] is set when [next] starts, [next] issues
    no order (and, given a current bar, returns normally).  Hence in every
    world a run can reach at most one order is open, an open order is
    always the strategy's pending one, and at most one order is open after
    the next bar's call too. *)
Theorem single_order_invariant :
  (forall w, order (self w) <> None ->
     issued next w = [] /\ (datas0 w <> [] -> raised (next w) = None)) /\
  (forall w, reachable w ->
     (length (open_orders w) <= 1)%nat /\
     (open_orders w <> [] -> order (self w) <> None) /\
     forall b, (length (open_orders (world_of (next (advance b w)))) <= 1)%nat).
Proof.
  split.
  - intros w P. destruct (order (self w)) as [o |] eqn:Eo; [| contradiction].
    destruct (next_pending_logs w o Eo) as [ls E].
    split; [exact (issued_logged next w ls E) |].
    destruct (datas0 w) as [| b h] eqn:Ed; [contradiction |].
    intros _. now rewrite (next_pending w o b h Eo Ed).
  - intros w R. assert (C := reachable_consistent w R).
    assert (forall v, consistent v -> (length (open_orders v) <= 1)%nat) as L.
    { intros v (_ & Ho & _). rewrite Ho. destruct (order (self v)); cbn; lia. }
    split; [now apply L | split].
    + destruct C as (_ & Ho & _). rewrite Ho.
      destruct (order (self w)); [discriminate | contradiction].
    + intros b. apply L, consistent_next, consistent_advance, C.
Qed.

Lemma single_order_invariant_witness :
  (length (open_orders buy_pending) <= 1)%nat /\
  issued next (advance (mkBar 3 7) buy_pending) = [] /\
  raised (next (advance (mkBar 3 7) buy_pending)) = None.
Proof.
  destruct single_order_invariant as [Guard Run].
  destruct (Run buy_pending reachable_buy_pending) as (L & _).
  destruct (Guard (advance (mkBar 3 7) buy_pending)) as [I R];
    [discriminate |].
  split; [exact L | split; [exact I | apply R; discriminate]].
Defined.

(** C6.  A Submitted or Accepted notification changes nothing at all:
    [notify_order] returns at once, so the pending order, [bar_executed],
    the position, the books and even the log are untouched and no order is
    issued. *)
Theorem informational_update_changes_nothing (o : OrderView) (w : World) :
  status o = Submitted \/ status o = Accepted ->
  notify_order o w = Ok tt w /\ issued (notify_order o) w = [].
Proof.
  intros E. assert (N := notify_informational o w E).
  split; [exact N |].
  apply (issued_logged _ w []). rewrite N. now destruct w.
Qed.

Lemma informational_update_changes_nothing_witness :
  notify_order (mkView (mkOrder 0 Buy 1) Accepted 0) buy_pending
  = Ok tt buy_pending.
Proof.
  apply (informational_update_changes_nothing
           (mkView (mkOrder 0 Buy 1) Accepted 0) buy_pending).
  right. reflexivity.
Defined.

(** C10.  A Completed notification, for a buy and for a sell alike, sets
    [bar_executed] to the current bar count (overwriting whatever it held)
    and clears the pending order. *)
Theorem completed_sets_bar_executed
    (o : OrderView) (w : World) (b : Bar) (h : list Bar) :
  status o = Completed -> datas0 w = b :: h ->
  raised (notify_order o w) = None /\
  bar_executed (self (world_of (notify_order o w)))
  = Some (Z.of_nat (length (datas0 w))) /\
  order (self (world_of (notify_order o w))) = None.
Proof.
  intros E Ed. rewrite (notify_completed o w b h E Ed). cbn. auto.
Qed.

Lemma completed_sets_bar_executed_witness :
  bar_executed (self sell_pending) = Some 3 /\
  bar_executed
    (self (world_of (notify_order (mkView (mkOrder 1 Sell 1) Completed 7)
                       sell_pending))) = Some 8.
Proof.
  split; [reflexivity |].
  apply (completed_sets_bar_executed
           (mkView (mkOrder 1 Sell 1) Completed 7) sell_pending
           (mkBar 7 7) _ eq_refl eq_refl).
Defined.

(** C2.  In [Flat] with closes c-2, c-1, c0 in the feed, [next] returns
    normally and issues a buy exactly when c0 < c-1 and c-1 < c-2, and
    issues nothing otherwise -- in particular when two neighbouring closes
    are equal.  Outside [Flat] no call of [next] issues a buy. *)
Theorem entry_condition_exact (w : World) :
  (forall b0 b1 b2 h,
     Flat w -> datas0 w = b0 :: b1 :: b2 :: h ->
     raised (next w) = None /\
     (issued next w = [Buy] <->
      close b0 < close b1 /\ close b1 < close b2) /\
     (~ (close b0 < close b1 /\ close b1 < close b2) ->
      issued next w = []) /\
     (close b0 = close b1 \/ close b1 = close b2 -> issued next w = [])) /\
  (~ Flat w -> ~ In Buy (issued next w)).
Proof.
  split.
  - intros b0 b1 b2 h F Ed.
    assert (close b0 < close b1 /\ close b1 < close b2 ->
            raised (next w) = None /\ issued next w = [Buy]) as Yes.
    { intros [H1 H2]. assert (N := next_flat_buy w b0 b1 b2 h F Ed H1 H2).
      split; [now rewrite N |].
      apply (issued_placed _ w [(datetime b0, MsgBuyCreate (close b0));
                                (datetime b0, MsgClose (close b0))]).
      now rewrite N. }
    assert (~ (close b0 < close b1 /\ close b1 < close b2) ->
            raised (next w) = None /\ issued next w = []) as No.
    { intros H.
      assert (next w = Ok tt (printed (datetime b0, MsgClose (close b0)) w))
        as N.
      { destruct (Z_lt_dec (close b0) (close b1)) as [H1 | H1].
        - apply (next_flat_one_step_down w b0 b1 b2 h F Ed H1). tauto.
        - apply (next_flat_not_lower w b0 b1 (b2 :: h) F Ed H1). }
      split; [now rewrite N |].
      apply (issued_printed _ w (datetime b0, MsgClose (close b0))).
      now rewrite N. }
    destruct (Z_lt_dec (close b0) (close b1)) as [H1 | H1];
      [destruct (Z_lt_dec (close b1) (close b2)) as [H2 | H2] |].
    + destruct (Yes (conj H1 H2)) as [R I].
      repeat split; auto; try tauto; lia.
    + destruct (No ltac:(tauto)) as [R I]. rewrite I.
      repeat split; auto; try tauto; discriminate.
    + destruct (No ltac:(tauto)) as [R I]. rewrite I.
      repeat split; auto; try tauto; discriminate.
  - intros NF B.
    destruct (issued_next_cases w) as [E | [(E & F & _) | (E & _)]].
    + rewrite E in B. exact B.
    + exact (NF F).
    + rewrite E in B. destruct B as [B | []]. discriminate.
Qed.

Lemma entry_condition_exact_witness :
  issued next (advance (mkBar 2 8) two_bars) = [Buy] /\
  issued next (advance (mkBar 2 9) two_bars) = [] /\
  ~ In Buy (issued next holding).
Proof.
  split; [| split].
  - apply (proj1 (entry_condition_exact (advance (mkBar 2 8) two_bars))
             (mkBar 2 8) (mkBar 1 9) (mkBar 0 10) []
             (conj eq_refl eq_refl) eq_refl).
    cbn. split; reflexivity.
  - apply (proj1 (entry_condition_exact (advance (mkBar 2 9) two_bars))
             (mkBar 2 9) (mkBar 1 9) (mkBar 0 10) []
             (conj eq_refl eq_refl) eq_refl).
    left. reflexivity.
  - apply (proj2 (entry_condition_exact holding)).
    intros [_ F]. discriminate F.
Defined.

(** Feeding bars one after the other. *)
Lemma run_hold (bs : list Bar) : forall (w : World) (i : Z),
  Long w -> bar_executed (self w) = Some i ->
  Z.of_nat (length (datas0 w)) + Z.of_nat (length bs) < i + 5 ->
  exists w',
    run (map EvBar bs) w = Some w' /\
    Long w' /\ self w' = self w /\ position w' = position w /\
    requests w' = requests w /\ open_orders w' = open_orders w /\
    datas0 w' = rev bs ++ datas0 w.
Proof.
  induction bs as [| b bs IH]; intros w i L Ee Hn.
  - exists w. cbn. repeat split; auto; apply L.
  - cbn [map run deliver].
    assert (next (advance b w)
            = Ok tt (printed (datetime b, MsgClose (close b)) (advance b w)))
      as N.
    { apply (next_long_hold (advance b w) b (datas0 w) i L eq_refl Ee).
      cbn [advance datas0 length] in *. lia. }
    rewrite N.
    destruct (IH (printed (datetime b, MsgClose (close b)) (advance b w)) i
                L Ee) as (w' & R & L' & Es & Ep & Er & Eo & Ed).
    { cbn [printed advance datas0 length] in *. lia. }
    exists w'. split; [exact R |]. rewrite Ed. cbn [rev].
    rewrite <- app_assoc. split; [exact L' |]. repeat split; auto.
Qed.

(** C3.  In [Long] with [bar_executed] = i, [next] returns normally and
    issues a sell exactly when the bar count is at least i + 5, and nothing
    before.  Counted from the notification that recorded i (bar count i),
    the four following bars pass without an order and the fifth one issues
    the sell. *)
Theorem exit_timing_exact (w : World) (b : Bar) (h : list Bar) (i : Z) :
  Long w -> datas0 w = b :: h -> bar_executed (self w) = Some i ->
  raised (next w) = None /\
  (issued next w = [Sell] <-> i + 5 <= Z.of_nat (length (datas0 w))) /\
  (Z.of_nat (length (datas0 w)) < i + 5 -> issued next w = []) /\
  (Z.of_nat (length (datas0 w)) = i ->
   forall bs b5, length bs = 4%nat ->
     exists w4, run (map EvBar bs) w = Some w4 /\
                requests w4 = requests w /\
                issued next (advance b5 w4) = [Sell]).
Proof.
  intros L Ed Ee.
  assert (forall v c k, Long v -> datas0 v = c :: k ->
            bar_executed (self v) = Some i ->
            i + 5 <= Z.of_nat (length (datas0 v)) ->
            raised (next v) = None /\ issued next v = [Sell]) as Yes.
  { intros v c k Lv Edv Eev H.
    assert (N := next_long_sell v c k i Lv Edv Eev H).
    split; [now rewrite N |].
    apply (issued_placed _ v [(datetime c, MsgSellCreate (close c));
                              (datetime c, MsgClose (close c))]).
    now rewrite N. }
  assert (Z.of_nat (length (datas0 w)) < i + 5 ->
          raised (next w) = None /\ issued next w = []) as No.
  { intros H. assert (N := next_long_hold w b h i L Ed Ee H).
    split; [now rewrite N |].
    apply (issued_printed _ w (datetime b, MsgClose (close b))).
    now rewrite N. }
  destruct (Z_lt_dec (Z.of_nat (length (datas0 w))) (i + 5)) as [H | H].
  - destruct (No H) as [R I]. rewrite I.
    repeat split; auto; try discriminate; try lia.
    intros Hi bs b5 Hbs.
    destruct (run_hold bs w i L Ee) as (w4 & R4 & L4 & Es & _ & Er & _ & E4).
    { rewrite Hbs. lia. }
    exists w4. repeat split; auto.
    apply (Yes (advance b5 w4) b5 (datas0 w4)); auto.
    + now rewrite <- Es in Ee.
    + cbn [advance datas0 length]. rewrite E4, length_app, length_rev, Hbs.
      lia.
  - destruct (Yes w b h L Ed Ee ltac:(lia)) as [R I]. rewrite I.
    repeat split; auto; try lia.
Qed.

Lemma exit_timing_exact_witness :
  issued next holding = [] /\
  exists w4,
    run (map EvBar [mkBar 3 7; mkBar 4 7; mkBar 5 7; mkBar 6 7]) holding
    = Some w4 /\
    requests w4 = requests holding /\
    issued next (advance (mkBar 7 7) w4) = [Sell].
Proof.
  destruct (exit_timing_exact holding (mkBar 2 8) [mkBar 1 9; mkBar 0 10] 3)
    as (_ & _ & Before & Fifth).
  { split; [reflexivity | discriminate]. }
  { reflexivity. }
  { reflexivity. }
  split; [apply Before; reflexivity |].
  apply (Fifth eq_refl [mkBar 3 7; mkBar 4 7; mkBar 5 7; mkBar 6 7]
           (mkBar 7 7) eq_refl).
Defined.

(** C4.  The code breaks the history guard on a feed that was loaded
    before the run, as the script's [cerebro.run()] does: nothing in [next]
    checks the number of bars, and on the first bar the look-backs
    [dataclose[-1]] and [dataclose[-2]] wrap round to the last two bars of
    the loaded data.  With closes 7, 10, 9, 8 the first bar sees
    7 < 8 < 9 and [next] places a buy with one bar of history. *)
Lemma history_guard_broken_by_preloaded_feed :
  started preloaded /\
  advance (mkBar 0 7) preloaded = preloaded_first_bar /\
  Flat preloaded_first_bar /\
  (length (datas0 preloaded_first_bar) < 3)%nat /\
  look preloaded_first_bar (-1) = Some (mkBar 3 8) /\
  look preloaded_first_bar (-2) = Some (mkBar 2 9) /\
  next preloaded_first_bar
  = Ok tt (placed Buy
             (printed (0, MsgBuyCreate 7)
                (printed (0, MsgClose 7) preloaded_first_bar))) /\
  issued next preloaded_first_bar = [Buy].
Proof.
  unfold started.
  repeat split; try reflexivity; cbn; try lia; discriminate.
Qed.

(** C5.  From [Flat], after the bar that makes the strategy place its buy,
    a Canceled, Margin or Rejected notification for that order brings the
    machine back to [Flat]: pending order cleared, position 0, the
    strategy's attributes (so also [bar_executed]) exactly as before the
    attempt, and no new order placed.  The resulting world is the same for
    the three statuses. *)
Theorem failed_buy_returns_to_flat
    (w : World) (b b1 b2 : Bar) (h : list Bar) (p : Z) :
  Flat w -> open_orders w = [] -> datas0 w = b1 :: b2 :: h ->
  close b < close b1 -> close b1 < close b2 ->
  exists w1 w',
    deliver (EvBar b) w = Some (Ok tt w1) /\ EnteringLong w1 /\
    (forall st, st = Canceled \/ st = Margin \/ st = Rejected ->
       deliver (EvOrder (length (requests w)) st p) w1 = Some (Ok tt w')) /\
    Flat w' /\ self w' = self w /\
    position w' = 0 /\ open_orders w' = [] /\
    requests w' = requests w1 /\ datas0 w' = datas0 w1.
Proof.
  intros [Fo Fp] Eopen Ed H1 H2.
  assert (next (advance b w)
          = Ok tt (placed Buy
                     (printed (datetime b, MsgBuyCreate (close b))
                        (printed (datetime b, MsgClose (close b))
                           (advance b w))))) as N.
  { apply (next_flat_buy (advance b w) b b1 b2 h); auto.
    - split; assumption.
    - cbn. now rewrite Ed. }
  exists (placed Buy
            (printed (datetime b, MsgBuyCreate (close b))
               (printed (datetime b, MsgClose (close b)) (advance b w)))).
  exists (mkWorld (b :: datas0 w) (tl (ahead w)) (position w) (stake w)
            (mkOrder (length (requests w)) Buy (stake w) :: requests w) []
            (mkStrategy None (bar_executed (self w)))
            ((datetime b, MsgOrderCanceledMarginRejected)
             :: (datetime b, MsgBuyCreate (close b))
             :: (datetime b, MsgClose (close b)) :: stdout w)).
  split; [unfold deliver; rewrite N; reflexivity |].
  split; [eexists; split; reflexivity |].
  split.
  { intros st Hst. unfold deliver. cbn [placed open_orders printed advance].
    rewrite Eopen. cbn [find_open find ref]. rewrite Nat.eqb_refl.
    rewrite (notify_failed _ _ b (datas0 w)) by (exact Hst || reflexivity).
    destruct Hst as [-> | [-> | ->]];
      unfold broker_update, remove_open; cbn;
      rewrite Eopen; cbn; rewrite Nat.eqb_refl; reflexivity. }
  cbn. rewrite Fp. repeat split; auto.
  destruct (self w) as [o e]. cbn in *. now subst.
Qed.

Lemma failed_buy_returns_to_flat_witness :
  exists w',
    run [EvBar (mkBar 2 8); EvOrder 0 Margin 0] two_bars = Some w' /\
    self w' = self two_bars /\ position w' = 0 /\ open_orders w' = [].
Proof.
  destruct (failed_buy_returns_to_flat two_bars (mkBar 2 8) (mkBar 1 9)
              (mkBar 0 10) [] 0)
    as (w1 & w' & D1 & _ & D2 & _ & Es & Ep & Eo & _).
  { split; reflexivity. }
  { reflexivity. }
  { reflexivity. }
  { reflexivity. }
  { reflexivity. }
  exists w'. split; [| auto].
  assert (D2' := D2 Margin (or_intror (or_introl eq_refl))).
  change (length (requests two_bars)) with 0%nat in D2'.
  cbn [run]. rewrite D1. cbn [run]. rewrite D2'. reflexivity.
Defined.

Lemma notify_never_attribute_error (o : OrderView) (w : World) :
  raised (notify_order o w) <> Some AttributeError.
Proof.
  destruct (notify_view o w); discriminate.
Qed.

(** C7.  In every world a run can reach the position is 0 or one stake,
    hence never negative.  [next] issues a sell only while a full stake is
    held and nothing is open, so an open sell is the only open order and
    has the size of the position; its completion brings the position to
    exactly 0. *)
Theorem never_short (w : World) :
  reachable w ->
  0 <= position w /\
  (position w = 0 \/ position w = stake w) /\
  (forall b, In Sell (issued next (advance b w)) ->
     0 < position w /\ position w = stake w /\ open_orders w = []) /\
  (forall o, In o (open_orders w) -> side o = Sell ->
     open_orders w = [o] /\ size o = position w /\
     forall p w', deliver (EvOrder (ref o) Completed p) w = Some (Ok tt w') ->
                  position w' = 0).
Proof.
  intros R. assert (C := reachable_consistent w R).
  destruct C as (Hs & Ho & Hp & Hb).
  assert (position w = 0 \/ position w = stake w) as P.
  { destruct (order (self w)) as [o |]; [| exact Hp].
    destruct Hp as [_ Hp]. destruct (side o); auto. }
  split; [lia | split; [exact P | split]].
  - intros b I.
    destruct (issued_next_cases (advance b w))
      as [E | [(E & _) | (E & [Lo Lp] & _)]].
    + rewrite E in I. contradiction.
    + rewrite E in I. destruct I as [I | []]. discriminate.
    + cbn in Lo, Lp. rewrite Lo in Ho. split; [lia | split; [lia | exact Ho]].
  - intros o I Sd. rewrite Ho in I.
    destruct (order (self w)) as [o' |] eqn:Eo; [| contradiction].
    destruct I as [<- | []]. destruct Hp as [Hsz Hpos]. rewrite Sd in Hpos.
    split; [exact Ho | split; [lia |]].
    intros p w' D. unfold deliver in D. rewrite Ho in D.
    cbn [find_open find] in D. rewrite Nat.eqb_refl in D.
    injection D as D.
    match type of D with
    | notify_order ?v ?u = _ =>
        destruct (notify_view v u)
          as [[E | E] | T E0 | b E E0 | b [E | [E | E]] E0]
    end; try discriminate.
    injection D as <-. cbn. unfold signed_size. rewrite Sd. lia.
Qed.

Lemma never_short_witness :
  0 <= position holding /\
  (position holding = 0 \/ position holding = stake holding).
Proof.
  destruct (never_short holding reachable_holding) as (N & P & _).
  split; [exact N | exact P].
Defined.

(** C9.  In every world a run can reach, a held position implies that
    [bar_executed] has been assigned, so no callback the engine can make
    next -- a bar or a status notification -- raises [AttributeError]: the
    sell branch never reads the attribute unset. *)
Theorem bar_executed_set_before_read (w : World) :
  reachable w ->
  (position w <> 0 -> bar_executed (self w) <> None) /\
  (forall ev r, deliver ev w = Some r -> raised r <> Some AttributeError).
Proof.
  intros R. assert (C := reachable_consistent w R).
  split; [apply C |].
  intros [b | n st p] r D; unfold deliver in D.
  - injection D as <-. intros A.
    destruct (next_attribute_error _ A) as [[_ Lp] Ee].
    destruct C as (_ & _ & _ & Hb). exact (Hb Lp Ee).
  - destruct (find_open n (open_orders w)) as [o |]; [| discriminate].
    injection D as <-. apply notify_never_attribute_error.
Qed.

Lemma bar_executed_set_before_read_witness :
  bar_executed (self holding) <> None /\
  raised (next (advance (mkBar 3 7) holding)) <> Some AttributeError.
Proof.
  destruct (bar_executed_set_before_read holding reachable_holding)
    as (B & A).
  split.
  - apply B. discriminate.
  - apply (A (EvBar (mkBar 3 7))). reflexivity.
Defined.

(** * Further properties of the callbacks *)

(** ** [next]: what a call does and does not do *)

(** X1.  A call of [next] places at most one order.  When it places one,
    [self.order] afterwards is exactly that order (nothing was pending
    before and the call returned normally); when it places none, the books
    and [self.order] are as before. *)
Theorem next_keeps_track_of_its_order (w : World) :
  (issued next w = [] /\
   requests (world_of (next w)) = requests w /\
   open_orders (world_of (next w)) = open_orders w /\
   order (self (world_of (next w))) = order (self w)) \/
  (exists o,
     issued next w = [side o] /\
     requests (world_of (next w)) = o :: requests w /\
     open_orders (world_of (next w)) = o :: open_orders w /\
     order (self (world_of (next w))) = Some o /\
     order (self w) = None /\ raised (next w) = None).
Proof.
  unfold issued.
  destruct (next_view w) as
    [E0 | o b Eo E0 | b F E0 E1 | b b1 F E0 E1 Hc | b b1 F E0 E1 Hc E2
     | b b1 b2 F E0 E1 Hc E2 Hc' | b b1 b2 F E0 E1 Hc E2 Hc'
     | b L E0 Ee | b i L E0 Ee Hn | b i L E0 Ee Hn];
    cbn [world_of raised].
  7: { right. eexists.
       rewrite (new_requests_app [_] w) by reflexivity.
       cbn. repeat split; solve [reflexivity | apply F]. }
  9: { right. eexists.
       rewrite (new_requests_app [_] w) by reflexivity.
       cbn. repeat split; solve [reflexivity | apply L]. }
  all: left; rewrite (new_requests_app [] w) by reflexivity;
       repeat split.
Qed.


(** X3.  With a current bar in the feed [next] never raises [IndexError],
    however short the history: a look-back past the first bar wraps round
    the buffer instead of failing.  On an empty buffer it raises
    [IndexError] before doing anything.  It raises [AttributeError] exactly
    when it is in [Long], a current bar can be read and [bar_executed] was
    never assigned; in that case only the Close line was written. *)
Theorem next_raises_exactly (w : World) :
  (datas0 w <> [] -> raised (next w) <> Some IndexError) /\
  (datas0 w = [] -> ahead w = [] -> next w = Raise IndexError w) /\
  (raised (next w) = Some AttributeError <->
   Long w /\ look w 0 <> None /\ bar_executed (self w) = None).
Proof.
  split; [| split; [apply next_no_bar |]].
  - intros Hd.
    destruct (next_view w) as
    [E0 | o b Eo E0 | b F E0 E1 | b b1 F E0 E1 Hc | b b1 F E0 E1 Hc E2
     | b b1 b2 F E0 E1 Hc E2 Hc' | b b1 b2 F E0 E1 Hc E2 Hc'
     | b L E0 Ee | b i L E0 Ee Hn | b i L E0 Ee Hn];
      cbn [raised]; try discriminate; exfalso.
    + apply look_current_none in E0. now destruct E0.
    + destruct (look_previous_some w Hd) as [b1 E]. congruence.
    + destruct (datas0 w) as [| c h] eqn:Ed; [contradiction |].
      destruct (look_before_none w c h Ed E2) as [-> Ea].
      rewrite (look_current w c [] Ed) in E0.
      rewrite (look_alone w c Ed Ea) in E1.
      injection E0 as <-. injection E1 as <-. lia.
  - destruct (next_view w) as
    [E0 | o b Eo E0 | b F E0 E1 | b b1 F E0 E1 Hc | b b1 F E0 E1 Hc E2
     | b b1 b2 F E0 E1 Hc E2 Hc' | b b1 b2 F E0 E1 Hc E2 Hc'
     | b L E0 Ee | b i L E0 Ee Hn | b i L E0 Ee Hn];
      cbn [raised]; (split; [try discriminate |]);
      try (intros ([Lo Lp] & Hl & Ee'); exfalso;
           try (destruct F as [Fo Fp]); try (destruct L as [Lo' Lp']);
           congruence).
    + intros _. split; [exact L | split; [congruence | exact Ee]].
    + reflexivity.
Qed.

(** ** Short histories *)

(** X16.  On a feed that is not loaded ahead, [next] in [Flat] with fewer
    than three bars delivered returns normally, writes only the Close line
    and places no order: a look-back that passes the first bar wraps round
    to the newest bars, and the two comparisons then cannot both hold. *)
Theorem short_history_is_quiet_without_preload
    (w : World) (b : Bar) (h : list Bar) :
  Flat w -> datas0 w = b :: h -> ahead w = [] ->
  (length (datas0 w) < 3)%nat ->
  next w = Ok tt (printed (datetime b, MsgClose (close b)) w) /\
  issued next w = [].
Proof.
  intros F Ed Ea Hl.
  assert (next w = Ok tt (printed (datetime b, MsgClose (close b)) w)) as N.
  { rewrite Ed in Hl. destruct F as [Eo Ep].
    destruct h as [| b1 [| b2 h]]; [| | cbn in Hl; lia].
    - assert (look w 0 = Some b) as E0 by (unfold look; now rewrite Ed, Ea).
      assert (look w (-1) = Some b) as E1
          by (unfold look; now rewrite Ed, Ea).
      rewrite next_eq, E0, E1, Eo, Ep. cbn [Z.eqb].
      now rewrite Z.ltb_irrefl.
    - assert (look w 0 = Some b) as E0 by (unfold look; now rewrite Ed, Ea).
      assert (look w (-1) = Some b1) as E1
          by (unfold look; now rewrite Ed, Ea).
      assert (look w (-2) = Some b) as E2
          by (unfold look; now rewrite Ed, Ea).
      rewrite (next_flat_looks w b b1 b (conj Eo Ep) E0 E1 E2).
      destruct (Z.ltb_spec (close b) (close b1)),
               (Z.ltb_spec (close b1) (close b)); cbn [andb];
        try reflexivity; lia. }
  split; [exact N |].
  apply (issued_printed next w (datetime b, MsgClose (close b))).
  now rewrite N.
Qed.

Lemma short_history_is_quiet_without_preload_witness :
  next one_bar = Ok tt (printed (0, MsgClose 10) one_bar) /\
  issued next one_bar = [].
Proof.
  apply (short_history_is_quiet_without_preload one_bar (mkBar 0 10) []).
  - split; reflexivity.
  - reflexivity.
  - reflexivity.
  - cbn. lia.
Defined.

(** X17.  On the first bar of a feed loaded before the run, with at least
    two more bars loaded, the look-backs of [next] read the last two bars
    of the whole feed.  [next] does not raise, and in [Flat] it places a
    buy exactly when the first close is below the last close and the last
    close below the one before it. *)
Theorem first_bar_of_preloaded_feed
    (w : World) (b a1 a2 : Bar) (t : list Bar) :
  Flat w -> datas0 w = [b] -> ahead w = t ++ [a1; a2] ->
  look w (-1) = Some a2 /\ look w (-2) = Some a1 /\
  raised (next w) = None /\
  (issued next w = [Buy] <-> close b < close a2 /\ close a2 < close a1).
Proof.
  intros F Ed Ea.
  assert (look w 0 = Some b) as E0 by exact (look_current w b [] Ed).
  assert (look w (-1) = Some a2) as E1.
  { unfold look, getitem, line_array, line_idx. rewrite Ed, Ea.
    cbn [rev length app Z.of_nat Pos.of_succ_nat Z.sub Z.add Z.opp
         Z.pos_sub].
    change (b :: t ++ [a1; a2]) with ((b :: t) ++ [a1] ++ [a2]).
    rewrite app_assoc. apply py_index_last. }
  assert (look w (-2) = Some a1) as E2.
  { unfold look, getitem, line_array, line_idx. rewrite Ed, Ea.
    cbn [rev length app Z.of_nat Pos.of_succ_nat Z.sub Z.add Z.opp
         Z.pos_sub].
    change (b :: t ++ [a1; a2]) with ((b :: t) ++ [a1; a2]).
    apply py_index_last_but_one. }
  repeat (split; [assumption |]).
  rewrite (next_flat_looks w b a2 a1 F E0 E1 E2).
  destruct (Z.ltb_spec (close b) (close a2)),
           (Z.ltb_spec (close a2) (close a1)); cbn [andb raised];
    (split; [reflexivity |]);
    try (rewrite (issued_printed next w (datetime b, MsgClose (close b)))
           by (rewrite (next_flat_looks w b a2 a1 F E0 E1 E2);
               destruct (Z.ltb_spec (close b) (close a2)),
                        (Z.ltb_spec (close a2) (close a1));
               cbn [andb world_of]; try reflexivity; lia);
         split; [discriminate | lia]).
  split; [auto |]. intros _.
  apply (issued_placed next w [(datetime b, MsgBuyCreate (close b));
                               (datetime b, MsgClose (close b))]).
  rewrite (next_flat_looks w b a2 a1 F E0 E1 E2).
  destruct (Z.ltb_spec (close b) (close a2)),
           (Z.ltb_spec (close a2) (close a1)); cbn [andb world_of];
    try reflexivity; lia.
Qed.

Lemma first_bar_of_preloaded_feed_witness :
  look preloaded_first_bar (-1) = Some (mkBar 3 8) /\
  look preloaded_first_bar (-2) = Some (mkBar 2 9) /\
  raised (next preloaded_first_bar) = None /\
  (issued next preloaded_first_bar = [Buy] <-> 7 < 8 /\ 8 < 9).
Proof.
  apply (first_bar_of_preloaded_feed preloaded_first_bar (mkBar 0 7)
           (mkBar 2 9) (mkBar 3 8) [mkBar 1 10]).
  - split; reflexivity.
  - reflexivity.
  - reflexivity.
Defined.

(** X18.  On the second bar of a feed loaded before the run, with at least
    one more bar loaded, the look-back by two reads the last bar of the
    whole feed.  [next] does not raise, and in [Flat] it places a buy
    exactly when the second close is below the first and the first below
    the last close of the feed. *)
Theorem second_bar_of_preloaded_feed
    (w : World) (b b1 a : Bar) (t : list Bar) :
  Flat w -> datas0 w = [b; b1] -> ahead w = t ++ [a] ->
  look w (-1) = Some b1 /\ look w (-2) = Some a /\
  raised (next w) = None /\
  (issued next w = [Buy] <-> close b < close b1 /\ close b1 < close a).
Proof.
  intros F Ed Ea.
  assert (look w 0 = Some b) as E0 by exact (look_current w b [b1] Ed).
  assert (look w (-1) = Some b1) as E1 by exact (look_previous w b b1 [] Ed).
  assert (look w (-2) = Some a) as E2.
  { unfold look, getitem, line_array, line_idx. rewrite Ed, Ea.
    cbn [rev length app Z.of_nat Pos.of_succ_nat Pos.succ Z.sub Z.add
         Z.opp Z.pos_sub Pos.pred_double].
    change (b1 :: b :: t ++ [a]) with ((b1 :: b :: t) ++ [a]).
    apply py_index_last. }
  repeat (split; [assumption |]).
  rewrite (next_flat_looks w b b1 a F E0 E1 E2).
  destruct (Z.ltb_spec (close b) (close b1)),
           (Z.ltb_spec (close b1) (close a)); cbn [andb raised];
    (split; [reflexivity |]);
    try (rewrite (issued_printed next w (datetime b, MsgClose (close b)))
           by (rewrite (next_flat_looks w b b1 a F E0 E1 E2);
               destruct (Z.ltb_spec (close b) (close b1)),
                        (Z.ltb_spec (close b1) (close a));
               cbn [andb world_of]; try reflexivity; lia);
         split; [discriminate | lia]).
  split; [auto |]. intros _.
  apply (issued_placed next w [(datetime b, MsgBuyCreate (close b));
                               (datetime b, MsgClose (close b))]).
  rewrite (next_flat_looks w b b1 a F E0 E1 E2).
  destruct (Z.ltb_spec (close b) (close b1)),
           (Z.ltb_spec (close b1) (close a)); cbn [andb world_of];
    try reflexivity; lia.
Qed.

Lemma second_bar_of_preloaded_feed_witness :
  look preloaded_second_bar (-1) = Some (mkBar 0 9) /\
  look preloaded_second_bar (-2) = Some (mkBar 3 10) /\
  raised (next preloaded_second_bar) = None /\
  (issued next preloaded_second_bar = [Buy] <-> 8 < 9 /\ 9 < 10).
Proof.
  apply (second_bar_of_preloaded_feed preloaded_second_bar (mkBar 1 8)
           (mkBar 0 9) (mkBar 3 10) [mkBar 2 7]).
  - split; reflexivity.
  - reflexivity.
  - reflexivity.
Defined.

(** ** [notify_order]: what a call does and does not do *)


(** X5.  [notify_order] raises only when a terminal status arrives while
    the feed is empty -- no bar delivered and none loaded (the log line
    needs the current bar's date) -- and then it has changed nothing: in
    particular the pending order has not been cleared.  Whenever it returns
    normally from a terminal status the pending order is cleared, whichever
    order the notification was for. *)
Theorem notify_order_raises_exactly (o : OrderView) (w : World) :
  (raised (notify_order o w) <> None <->
   terminal (status o) = true /\ datas0 w = [] /\ ahead w = []) /\
  (raised (notify_order o w) <> None ->
   notify_order o w = Raise IndexError w) /\
  (raised (notify_order o w) = None -> terminal (status o) = true ->
   order (self (world_of (notify_order o w))) = None).
Proof.
  destruct (notify_view o w) as [E | T E0 | b E E0 | b E E0];
    cbn [raised world_of].
  - repeat split; try contradiction.
    + intros [T _]. destruct E as [E | E]; rewrite E in T; discriminate.
    + intros _ T. destruct E as [E | E]; rewrite E in T; discriminate.
  - apply look_current_none in E0. repeat split; auto; try apply E0;
      discriminate.
  - repeat split; try contradiction. intros (_ & Hd).
    apply look_current_none in Hd. congruence.
  - repeat split; try contradiction. intros (_ & Hd).
    apply look_current_none in Hd. congruence.
Qed.

(** X6.  With a current bar in the feed, [next] first logs that bar's
    close, and every line [next] or [notify_order] writes is stamped with
    that bar's date ([log] is always called without [dt]). *)
Theorem log_lines_carry_current_date (w : World) (b : Bar) (h : list Bar) :
  datas0 w = b :: h ->
  (exists ls,
     stdout (world_of (next w))
     = ls ++ (datetime b, MsgClose (close b)) :: stdout w /\
     Forall (fun l => fst l = datetime b) ls) /\
  (forall o, exists ls,
     stdout (world_of (notify_order o w)) = ls ++ stdout w /\
     Forall (fun l => fst l = datetime b) ls).
Proof.
  intros Hd. split.
  - destruct (next_view w) as
      [E0 | o c Eo E0 | c F E0 E1 | c c1 F E0 E1 Hc | c c1 F E0 E1 Hc E2
       | c c1 c2 F E0 E1 Hc E2 Hc' | c c1 c2 F E0 E1 Hc E2 Hc'
       | c L E0 Ee | c i L E0 Ee Hn | c i L E0 Ee Hn];
      cbn [world_of]; rewrite (look_current w b h Hd) in E0;
      try discriminate; injection E0 as <-.
    6,9: eexists [_]; split; [reflexivity | repeat constructor].
    all: exists []; split; [reflexivity | constructor].
  - intros o.
    destruct (notify_view o w) as [E | T E0 | c E E0 | c E E0];
      cbn [world_of]; try (rewrite (look_current w b h Hd) in E0;
                           try discriminate; injection E0 as <-).
    1: exists []; split; [reflexivity | constructor].
    all: eexists [_]; split; [reflexivity | repeat constructor].
Qed.

Lemma log_lines_carry_current_date_witness :
  exists ls,
    stdout (world_of (next (advance (mkBar 2 8) two_bars)))
    = ls ++ (2, MsgClose 8) :: stdout two_bars /\
    Forall (fun l => fst l = 2) ls.
Proof.
  apply (log_lines_carry_current_date (advance (mkBar 2 8) two_bars)
           (mkBar 2 8) (datas0 two_bars) eq_refl).
Defined.

(** * Further properties of runs *)

(** ** Delivering one event *)

Lemma run_app (evs evs' : list Event) (w : World) :
  run (evs ++ evs') w
  = match run evs w with Some w1 => run evs' w1 | None => None end.
Proof.
  revert w. induction evs as [| ev evs IH]; intros w; [reflexivity |].
  cbn [app run]. destruct (deliver ev w) as [[[] w1 | e w1] |]; auto.
Qed.

Lemma deliver_informational (w : World) (o : Order) (st : OrderStatus)
    (p : Z) :
  open_orders w = [o] -> st = Submitted \/ st = Accepted ->
  deliver (EvOrder (ref o) st p) w = Some (Ok tt w).
Proof.
  intros Eo Hst. unfold deliver. rewrite Eo. cbn [find_open find].
  rewrite Nat.eqb_refl. rewrite notify_informational by exact Hst.
  destruct Hst as [-> | ->]; now destruct w.
Qed.

Lemma deliver_completed (w : World) (o : Order) (p : Z) (b : Bar)
    (h : list Bar) :
  open_orders w = [o] -> datas0 w = b :: h ->
  deliver (EvOrder (ref o) Completed p) w
  = Some (Ok tt (mkWorld (datas0 w) (ahead w) (position w + signed_size o)
                   (stake w)
                   (requests w) []
                   (mkStrategy None (Some (Z.of_nat (length (datas0 w)))))
                   ((datetime b, match side o with
                                 | Buy => MsgBuyExecuted p
                                 | Sell => MsgSellExecuted p
                                 end) :: stdout w))).
Proof.
  intros Eo Ed. unfold deliver. rewrite Eo. cbn [find_open find].
  rewrite Nat.eqb_refl.
  rewrite (notify_completed _ _ b h) by (reflexivity || exact Ed).
  unfold broker_update, with_self, printed. cbn.
  now rewrite Eo, remove_open_single.
Qed.

Lemma deliver_failed (w : World) (o : Order) (st : OrderStatus) (p : Z)
    (b : Bar) (h : list Bar) :
  open_orders w = [o] -> datas0 w = b :: h ->
  st = Canceled \/ st = Margin \/ st = Rejected ->
  deliver (EvOrder (ref o) st p) w
  = Some (Ok tt (mkWorld (datas0 w) (ahead w) (position w) (stake w) (requests w) []
                   (mkStrategy None (bar_executed (self w)))
                   ((datetime b, MsgOrderCanceledMarginRejected)
                    :: stdout w))).
Proof.
  intros Eo Ed Hst. unfold deliver. rewrite Eo. cbn [find_open find].
  rewrite Nat.eqb_refl.
  rewrite (notify_failed _ _ b h) by (exact Hst || exact Ed).
  destruct Hst as [-> | [-> | ->]];
    unfold broker_update, with_self, printed; cbn;
    now rewrite Eo, remove_open_single.
Qed.

Lemma next_keeps_feed (w : World) :
  datas0 (world_of (next w)) = datas0 w.
Proof. destruct (next_view w); reflexivity. Qed.

Lemma notify_keeps_feed (o : OrderView) (w : World) :
  datas0 (world_of (notify_order o w)) = datas0 w.
Proof. destruct (notify_view o w); reflexivity. Qed.

(** The feed only grows: a bar adds one, a notification none. *)
Lemma deliver_feed (ev : Event) (w : World) (r : Result unit) :
  deliver ev w = Some r ->
  datas0 (world_of r)
  = match ev with EvBar b => b :: datas0 w | EvOrder _ _ _ => datas0 w end.
Proof.
  destruct ev as [b | n st p]; unfold deliver.
  - intros [= <-]. now rewrite next_keeps_feed.
  - destruct (find_open n (open_orders w)); [| discriminate].
    intros [= <-]. now rewrite notify_keeps_feed.
Qed.

Lemma run_feed_grows (evs : list Event) : forall (w w' : World),
  run evs w = Some w' -> (length (datas0 w) <= length (datas0 w'))%nat.
Proof.
  induction evs as [| ev evs IH]; intros w w' R; cbn [run] in R.
  - injection R as <-. lia.
  - destruct (deliver ev w) as [[[] w1 | e w1] |] eqn:D; try discriminate.
    apply IH in R. apply deliver_feed in D. cbn [world_of] in D.
    destruct ev; rewrite D in R; cbn [length] in R; lia.
Qed.

(** ** Retrying *)

(** X7.  A sell that is refused is sent again on the very next bar: in
    [Long] past the hold period, after the bar that sends the sell and a
    Canceled, Margin or Rejected answer, the machine is in [Long] again
    with its attributes and position as before, and the following bar
    sends a second sell. *)
Theorem failed_sell_is_retried
    (w : World) (b b' : Bar) (st : OrderStatus) (p i : Z) :
  Long w -> open_orders w = [] -> bar_executed (self w) = Some i ->
  i + 5 <= Z.of_nat (length (datas0 w)) + 1 ->
  st = Canceled \/ st = Margin \/ st = Rejected ->
  exists w1 w2 w3,
    deliver (EvBar b) w = Some (Ok tt w1) /\ ExitingLong w1 /\
    deliver (EvOrder (length (requests w)) st p) w1 = Some (Ok tt w2) /\
    Long w2 /\ self w2 = self w /\ position w2 = position w /\
    deliver (EvBar b') w2 = Some (Ok tt w3) /\ ExitingLong w3 /\
    map side (new_requests w w3) = [Sell; Sell].
Proof.
  intros [Lo Lp] Eopen Ee Hn Hst.
  assert (N1 := next_long_sell (advance b w) b (datas0 w) i
                  (conj Lo Lp) eq_refl Ee).
  cbn [advance datas0 length] in N1.
  specialize (N1 ltac:(lia)).
  eexists. eexists. eexists.
  split; [unfold deliver; rewrite N1; reflexivity |].
  split; [eexists; split; reflexivity |].
  split.
  { apply (deliver_failed _ (mkOrder (length (requests w)) Sell (stake w))
             st p b (datas0 w)); auto.
    cbn. now rewrite Eopen. }
  cbn [placed printed advance self position order bar_executed datas0
       stake requests stdout open_orders].
  split; [split; [reflexivity | exact Lp] |].
  split; [destruct (self w) as [o e]; cbn in *; now subst |].
  split; [reflexivity |].
  split.
  { unfold deliver.
    rewrite (next_long_sell _ b' (b :: datas0 w) i); try reflexivity.
    - split; [reflexivity | exact Lp].
    - exact Ee.
    - cbn [advance datas0 length]. lia. }
  split; [eexists; split; reflexivity |].
  now rewrite (new_requests_app
                 [mkOrder (S (length (requests w))) Sell (stake w);
                  mkOrder (length (requests w)) Sell (stake w)] w).
Qed.

Lemma failed_sell_is_retried_witness :
  exists w1 w2 w3,
    deliver (EvBar (mkBar 7 7)) ready_to_sell = Some (Ok tt w1) /\
    ExitingLong w1 /\
    deliver (EvOrder 1 Canceled 0) w1 = Some (Ok tt w2) /\
    Long w2 /\
    deliver (EvBar (mkBar 8 6)) w2 = Some (Ok tt w3) /\ ExitingLong w3.
Proof.
  destruct (failed_sell_is_retried ready_to_sell (mkBar 7 7) (mkBar 8 6)
              Canceled 0 3)
    as (w1 & w2 & w3 & D1 & X1 & D2 & L2 & _ & _ & D3 & X3 & _).
  { split; [reflexivity | discriminate]. }
  { reflexivity. }
  { reflexivity. }
  { cbn. lia. }
  { left. reflexivity. }
  exists w1, w2, w3. repeat (split; [assumption |]). assumption.
Defined.

(** X8.  A buy that is refused is not sent again by itself: after the bar
    that sends the buy and a Canceled, Margin or Rejected answer, the next
    bar sends a fresh buy exactly when it closes below the bar of the
    refused attempt (the decline must go on), and otherwise nothing. *)
Theorem reentry_after_failed_buy
    (w : World) (b b1 b2 b' : Bar) (h : list Bar) (st : OrderStatus) (p : Z) :
  Flat w -> open_orders w = [] -> datas0 w = b1 :: b2 :: h ->
  close b < close b1 -> close b1 < close b2 ->
  st = Canceled \/ st = Margin \/ st = Rejected ->
  exists w2,
    run [EvBar b; EvOrder (length (requests w)) st p] w = Some w2 /\
    raised (next (advance b' w2)) = None /\
    (issued next (advance b' w2) = [Buy] <-> close b' < close b) /\
    (close b <= close b' -> issued next (advance b' w2) = []).
Proof.
  intros [Fo Fp] Eopen Ed H1 H2 Hst.
  assert (N1 := next_flat_buy (advance b w) b b1 b2 h (conj Fo Fp)).
  cbn [advance datas0] in N1. specialize (N1 (f_equal _ Ed) H1 H2).
  eexists. split.
  { cbn [run]. unfold deliver at 1. rewrite N1.
    rewrite (deliver_failed _ (mkOrder (length (requests w)) Buy (stake w))
               st p b (datas0 w)); auto.
    cbn. now rewrite Eopen. }
  cbn [placed printed advance datas0 position stake requests self stdout].
  rewrite Ed.
  match goal with |- context [next ?v] => set (w3 := v) end.
  assert (Flat w3) as F3 by (split; [reflexivity | exact Fp]).
  destruct (Z_lt_dec (close b') (close b)) as [Hc | Hc].
  - assert (N := next_flat_buy w3 b' b b1 (b2 :: h) F3 eq_refl Hc H1).
    assert (issued next w3 = [Buy]) as I.
    { apply (issued_placed _ w3 [(datetime b', MsgBuyCreate (close b'));
                                 (datetime b', MsgClose (close b'))]).
      now rewrite N. }
    rewrite I, N. cbn [raised]. repeat split; auto. lia.
  - assert (N := next_flat_not_lower w3 b' b (b1 :: b2 :: h) F3 eq_refl Hc).
    assert (issued next w3 = []) as I.
    { apply (issued_printed _ w3 (datetime b', MsgClose (close b'))).
      now rewrite N. }
    rewrite I, N. cbn [raised]. repeat split; auto; try discriminate.
    intros Hlt. contradiction.
Qed.

Lemma reentry_after_failed_buy_witness :
  exists w2,
    run [EvBar (mkBar 2 8); EvOrder 0 Rejected 0] two_bars = Some w2 /\
    issued next (advance (mkBar 3 7) w2) = [Buy] /\
    issued next (advance (mkBar 3 8) w2) = [].
Proof.
  destruct (reentry_after_failed_buy two_bars (mkBar 2 8) (mkBar 1 9)
              (mkBar 0 10) (mkBar 3 7) [] Rejected 0)
    as (w2 & R & _ & B & _);
    try reflexivity; [split; reflexivity | right; right; reflexivity |].
  destruct (reentry_after_failed_buy two_bars (mkBar 2 8) (mkBar 1 9)
              (mkBar 0 10) (mkBar 3 8) [] Rejected 0)
    as (w2' & R' & _ & _ & N);
    try reflexivity; [split; reflexivity | right; right; reflexivity |].
  exists w2. split; [exact R | split].
  - apply B. reflexivity.
  - change (length (requests two_bars)) with 0%nat in R, R'.
    rewrite R in R'. injection R' as <-. apply N. cbn. lia.
Defined.

(** ** No callback fails once the feed is warm *)

(** With three bars in the feed and the run's invariant, [next] returns. *)
Lemma next_returns_when_warm (w : World) :
  consistent w -> (3 <= length (datas0 w))%nat -> raised (next w) = None.
Proof.
  intros (_ & _ & _ & Hb) Hl.
  destruct (next_view w) as
    [E0 | o b Eo E0 | b F E0 E1 | b b1 F E0 E1 Hc | b b1 F E0 E1 Hc E2
     | b b1 b2 F E0 E1 Hc E2 Hc' | b b1 b2 F E0 E1 Hc E2 Hc'
     | b L E0 Ee | b i L E0 Ee Hn | b i L E0 Ee Hn];
    try reflexivity; exfalso.
  - apply look_current_none in E0. destruct E0 as [Ed _].
    rewrite Ed in Hl. cbn in Hl. lia.
  - destruct (look_previous_some w) as [b1 E]; [| congruence].
    intros Ed. rewrite Ed in Hl. cbn in Hl. lia.
  - destruct (datas0 w) as [| c h] eqn:Ed; [cbn in Hl; lia |].
    destruct (look_before_none w c h Ed E2) as [-> _]. cbn in Hl. lia.
  - destruct L as [_ Lp]. exact (Hb Lp Ee).
Qed.

(** X9.  A run that starts with at least two bars in the feed never stops
    on an exception: whatever events have been delivered, the next bar and
    the next notification both return normally. *)
Theorem run_never_raises_when_warm
    (w0 w : World) (evs : list Event) (ev : Event) (r : Result unit) :
  started w0 -> (2 <= length (datas0 w0))%nat ->
  run evs w0 = Some w -> deliver ev w = Some r ->
  raised r = None.
Proof.
  intros S Hl R D.
  assert (C := consistent_run evs w0 w (started_consistent w0 S) R).
  assert (Hl' := run_feed_grows evs w0 w R).
  destruct ev as [b | n st p]; unfold deliver in D.
  - injection D as <-. apply next_returns_when_warm.
    + now apply consistent_advance.
    + cbn [advance datas0 length]. lia.
  - destruct (find_open n (open_orders w)) as [o |]; [| discriminate].
    injection D as <-.
    destruct (notify_view (mkView o st p) (broker_update o st w))
      as [E | T E0 | b E E0 | b E E0]; try reflexivity.
    apply look_current_none in E0. destruct E0 as [Ed _].
    cbn [broker_update datas0] in Ed. rewrite Ed in Hl'. cbn in Hl'. lia.
Qed.

Lemma run_never_raises_when_warm_witness :
  raised (next (advance (mkBar 3 7) holding)) = None /\
  raised (notify_order (mkView (mkOrder 0 Buy 1) Margin 0)
            (broker_update (mkOrder 0 Buy 1) Margin buy_pending)) = None.
Proof.
  assert (started two_bars) as S
    by (unfold started; cbn; repeat split; reflexivity).
  assert (2 <= length (datas0 two_bars))%nat as L by (cbn; lia).
  split.
  - apply (run_never_raises_when_warm two_bars holding
             [EvBar (mkBar 2 8); EvOrder 0 Completed 8] (EvBar (mkBar 3 7))
             _ S L eq_refl eq_refl).
  - apply (run_never_raises_when_warm two_bars buy_pending
             [EvBar (mkBar 2 8)] (EvOrder 0 Margin 0)
             _ S L eq_refl eq_refl).
Defined.

(** ** The machine follows its arrows *)

Lemma phase_pending (w : World) (o : Order) :
  order (self w) = Some o ->
  phase w = match side o with
            | Buy => PEnteringLong
            | Sell => PExitingLong
            end.
Proof. intros E. unfold phase. now rewrite E. Qed.

Lemma phase_flat (w : World) : Flat w -> phase w = PFlat.
Proof. intros [Eo Ep]. unfold phase. now rewrite Eo, Ep. Qed.

Lemma phase_long (w : World) : Long w -> phase w = PLong.
Proof.
  intros [Eo Ep]. unfold phase. rewrite Eo.
  now destruct (Z.eqb_spec (position w) 0).
Qed.

(** X10.  In a run every event moves the machine along one of these
    arrows and no other: a bar keeps the state or goes from [Flat] to
    [EnteringLong] or from [Long] to [ExitingLong]; Submitted and Accepted
    keep the pending state; Completed takes [EnteringLong] to [Long] and
    [ExitingLong] to [Flat]; Canceled, Margin and Rejected take
    [EnteringLong] back to [Flat] and [ExitingLong] back to [Long]. *)
Theorem run_follows_arrows (w w' : World) (ev : Event) :
  reachable w -> deliver ev w = Some (Ok tt w') ->
  arrow (phase w) ev (phase w') = true.
Proof.
  intros R D. assert (C := reachable_consistent w R).
  destruct ev as [b | n st p]; unfold deliver in D.
  - injection D as D.
    destruct (next_view (advance b w)) as
      [E0 | o c Eo E0 | c F E0 E1 | c c1 F E0 E1 Hc | c c1 F E0 E1 Hc E2
       | c c1 c2 F E0 E1 Hc E2 Hc' | c c1 c2 F E0 E1 Hc E2 Hc'
       | c L E0 Ee | c i L E0 Ee Hn | c i L E0 Ee Hn];
      try discriminate; injection D as <-.
    + rewrite (phase_pending w o Eo).
      rewrite (phase_pending (printed _ (advance b w)) o Eo).
      now destruct (side o).
    + now rewrite (phase_flat w F), (phase_flat (printed _ (advance b w)) F).
    + now rewrite (phase_flat w F), (phase_flat (printed _ (advance b w)) F).
    + now rewrite (phase_flat w F).
    + now rewrite (phase_long w L), (phase_long (printed _ (advance b w)) L).
    + now rewrite (phase_long w L).
  - destruct (find_open n (open_orders w)) as [o |] eqn:F; [| discriminate].
    injection D as D.
    destruct (deliverable_order w n o C F) as (Eo & Eopen & _).
    destruct C as (Hs & _ & Hp & _). rewrite Eo in Hp.
    destruct Hp as [Hsz Hpos].
    rewrite (phase_pending w o Eo).
    destruct (notify_view (mkView o st p) (broker_update o st w))
      as [E | T E0 | c E E0 | c E E0]; try discriminate;
      injection D as <-; cbn [status] in E.
    + rewrite (phase_pending (broker_update o st w) o Eo).
      destruct E as [-> | ->]; now destruct (side o).
    + subst st. unfold phase. cbn. unfold signed_size.
      destruct (side o); rewrite Hpos.
      * destruct (Z.eqb_spec (0 + size o) 0); [lia | reflexivity].
      * destruct (Z.eqb_spec (stake w + - size o) 0); [reflexivity | lia].
    + unfold phase. cbn.
      replace (status_eqb st Completed) with false
        by (destruct E as [-> | [-> | ->]]; reflexivity).
      rewrite Hpos.
      destruct (side o);
        [| destruct (Z.eqb_spec (stake w) 0); [lia |]];
        destruct E as [-> | [-> | ->]]; reflexivity.
Qed.

Lemma run_follows_arrows_witness :
  arrow (phase buy_pending) (EvOrder 0 Completed 8) (phase holding) = true /\
  arrow (phase holding) (EvBar (mkBar 3 7))
        (phase (world_of (next (advance (mkBar 3 7) holding)))) = true.
Proof.
  split.
  - apply (run_follows_arrows buy_pending holding (EvOrder 0 Completed 8)
             reachable_buy_pending eq_refl).
  - apply (run_follows_arrows holding _ (EvBar (mkBar 3 7))
             reachable_holding eq_refl).
Defined.

(** ** The log tells what happened *)

Lemma deliver_log (ev : Event) (w w' : World) :
  deliver ev w = Some (Ok tt w') ->
  exists ls rs,
    stdout w' = ls ++ stdout w /\ requests w' = rs ++ requests w /\
    length (filter is_close_line ls) = (if is_bar ev then 1 else 0)%nat /\
    length (filter is_create_line ls) = length rs.
Proof.
  destruct ev as [b | n st p]; unfold deliver.
  - intros [= D].
    destruct (next_view (advance b w)) as
      [E0 | o c Eo E0 | c F E0 E1 | c c1 F E0 E1 Hc | c c1 F E0 E1 Hc E2
       | c c1 c2 F E0 E1 Hc E2 Hc' | c c1 c2 F E0 E1 Hc E2 Hc'
       | c L E0 Ee | c i L E0 Ee Hn | c i L E0 Ee Hn];
      try discriminate; injection D as <-.
    4,6: eexists [_; _], [_]; repeat split; reflexivity.
    all: eexists [_], []; repeat split; reflexivity.
  - destruct (find_open n (open_orders w)) as [o |]; [| discriminate].
    intros [= D].
    destruct (notify_view (mkView o st p) (broker_update o st w))
      as [E | T E0 | c E E0 | c E E0]; try discriminate;
      injection D as <-.
    + exists [], []. repeat split; reflexivity.
    + eexists [_], []. repeat split; try reflexivity;
        cbn; now destruct (side o).
    + eexists [_], []. repeat split; reflexivity.
Qed.

(** X11.  Over any run the log gains exactly one Close line per bar
    delivered and exactly one BUY CREATE or SELL CREATE line per order
    placed; nothing already logged or requested is ever removed. *)
Theorem log_counts_bars_and_orders (evs : list Event) (w w' : World) :
  run evs w = Some w' ->
  exists ls rs,
    stdout w' = ls ++ stdout w /\ requests w' = rs ++ requests w /\
    length (filter is_close_line ls) = length (filter is_bar evs) /\
    length (filter is_create_line ls) = length rs.
Proof.
  revert w. induction evs as [| ev evs IH]; intros w R; cbn [run] in R.
  - injection R as <-. exists [], []. repeat split; reflexivity.
  - destruct (deliver ev w) as [[[] w1 | e w1] |] eqn:D; try discriminate.
    destruct (deliver_log ev w w1 D) as (ls1 & rs1 & El1 & Er1 & Hc1 & Hr1).
    destruct (IH w1 R) as (ls & rs & El & Er & Hc & Hr).
    exists (ls ++ ls1), (rs ++ rs1).
    rewrite El, El1, Er, Er1, !filter_app, !length_app, <- !app_assoc.
    repeat split; try lia.
    cbn [filter]. destruct (is_bar ev); cbn [length]; lia.
Qed.

Lemma log_counts_bars_and_orders_witness :
  exists ls rs,
    stdout holding = ls ++ stdout two_bars /\
    requests holding = rs ++ requests two_bars /\
    length (filter is_close_line ls) = 1%nat /\
    length (filter is_create_line ls) = length rs.
Proof.
  apply (log_counts_bars_and_orders
           [EvBar (mkBar 2 8); EvOrder 0 Completed 8] two_bars holding
           eq_refl).
Defined.

(** ** A whole trade *)

Lemma run_keeps_stake (evs : list Event) : forall (w w' : World),
  run evs w = Some w' -> stake w' = stake w.
Proof.
  induction evs as [| ev evs IH]; intros w w' R; cbn [run] in R.
  - now injection R as <-.
  - destruct (deliver ev w) as [[[] w1 | e w1] |] eqn:D; try discriminate.
    rewrite (IH w1 w' R). clear - D.
    destruct ev as [c | n st q]; unfold deliver in D.
    + injection D as D.
      assert (stake (world_of (next (advance c w))) = stake w) as E
        by (destruct (next_view (advance c w)); reflexivity).
      now rewrite D in E.
    + destruct (find_open n (open_orders w)) as [o |]; [| discriminate].
      injection D as D.
      assert (stake (world_of (notify_order (mkView o st q)
                                 (broker_update o st w))) = stake w) as E
        by (destruct (notify_view (mkView o st q) (broker_update o st w));
            reflexivity).
      now rewrite D in E.
Qed.

(** X12.  From [Flat] with a two-step decline the machine makes one whole
    trade and is flat again: the bar sends the buy, its completion opens
    the position, the next four bars send nothing, the fifth sends the
    sell, and its completion closes the position.  Exactly two orders were
    placed, none is open, and [bar_executed] holds the bar count of the
    exit. *)
Theorem whole_trade_returns_to_flat
    (w : World) (b b1 b2 b5 : Bar) (h bs : list Bar) (p p' : Z) :
  Flat w -> open_orders w = [] -> 0 < stake w ->
  datas0 w = b1 :: b2 :: h ->
  close b < close b1 -> close b1 < close b2 ->
  length bs = 4%nat ->
  exists w',
    run (EvBar b :: EvOrder (length (requests w)) Completed p
         :: map EvBar bs
         ++ [EvBar b5; EvOrder (S (length (requests w))) Completed p']) w
    = Some w' /\
    Flat w' /\ open_orders w' = [] /\
    map side (new_requests w w') = [Sell; Buy] /\
    bar_executed (self w') = Some (Z.of_nat (length (datas0 w)) + 6) /\
    datas0 w' = b5 :: rev bs ++ b :: datas0 w.
Proof.
  intros [Fo Fp] Eopen Hs Ed H1 H2 Hbs.
  assert (N1 := next_flat_buy (advance b w) b b1 b2 h (conj Fo Fp)).
  cbn [advance datas0] in N1. specialize (N1 (f_equal _ Ed) H1 H2).
  set (buy_o := mkOrder (length (requests w)) Buy (stake w)).
  set (w1 := placed Buy
               (printed (datetime b, MsgBuyCreate (close b))
                  (printed (datetime b, MsgClose (close b)) (advance b w))))
    in *.
  assert (D2 := deliver_completed w1 buy_o p b (datas0 w)).
  cbn [w1 placed printed advance open_orders datas0] in D2.
  rewrite Eopen in D2. specialize (D2 eq_refl eq_refl).
  match type of D2 with _ = Some (Ok tt ?v) => set (w2 := v) in * end.
  assert (Long w2) as L2.
  { split; [reflexivity |]. cbn. rewrite Fp. lia. }
  destruct (run_hold bs w2 (Z.of_nat (length (b :: datas0 w))) L2 eq_refl)
    as (w3 & R3 & L3 & Es3 & Ep3 & Er3 & Eo3 & Ed3).
  { cbn [w2 datas0]. rewrite Hbs. lia. }
  assert (stake w3 = stake w) as Est
    by (rewrite (run_keeps_stake _ _ _ R3); reflexivity).
  assert (bar_executed (self (advance b5 w3))
          = Some (Z.of_nat (length (b :: datas0 w)))) as Ee3
    by (cbn [advance self]; rewrite Es3; reflexivity).
  assert (Z.of_nat (length (b :: datas0 w)) + 5
          <= Z.of_nat (length (datas0 (advance b5 w3)))) as Hlen.
  { cbn [advance datas0]. rewrite Ed3. cbn [length w2 datas0].
    rewrite length_app, length_rev, Hbs. cbn [length]. lia. }
  assert (N4 := next_long_sell (advance b5 w3) b5 (datas0 w3) _ L3 eq_refl
                  Ee3 Hlen).
  match type of N4 with _ = Ok tt ?v => set (w4 := v) in * end.
  set (sell_o := mkOrder (length (requests w3)) Sell (stake w3)).
  assert (D5 := deliver_completed w4 sell_o p' b5 (datas0 w3)).
  specialize (D5 ltac:(cbn; rewrite Eo3; reflexivity) eq_refl).
  assert (ref sell_o = S (length (requests w))) as Eref
    by (cbn [sell_o ref]; rewrite Er3; reflexivity).
  eexists. split.
  { cbn [run]. unfold deliver at 1. rewrite N1.
    change (length (requests w)) with (ref buy_o) at 1. rewrite D2.
    rewrite run_app, R3. cbn [run]. unfold deliver at 1. rewrite N4.
    rewrite <- Eref, D5. reflexivity. }
  cbn [self order bar_executed position open_orders datas0 w4 placed printed
       advance].
  split.
  { split; [reflexivity |]. unfold signed_size. cbn [sell_o side size].
    rewrite Est, Ep3. cbn. rewrite Fp. lia. }
  split; [reflexivity |].
  split.
  { rewrite (new_requests_app [sell_o; buy_o] w); [reflexivity |].
    cbn [requests w4 placed printed advance app].
    f_equal; solve [reflexivity | rewrite Er3; reflexivity]. }
  split.
  { f_equal. rewrite Ed3. cbn [length].
    rewrite length_app, length_rev, Hbs. cbn [w2 datas0 length]. lia. }
  rewrite Ed3. reflexivity.
Qed.

Lemma whole_trade_returns_to_flat_witness :
  exists w',
    run (EvBar (mkBar 2 8) :: EvOrder 0 Completed 8
         :: map EvBar [mkBar 3 7; mkBar 4 7; mkBar 5 7; mkBar 6 7]
         ++ [EvBar (mkBar 7 7); EvOrder 1 Completed 7]) two_bars
    = Some w' /\
    Flat w' /\ bar_executed (self w') = Some 8.
Proof.
  destruct (whole_trade_returns_to_flat two_bars (mkBar 2 8) (mkBar 1 9)
              (mkBar 0 10) (mkBar 7 7) []
              [mkBar 3 7; mkBar 4 7; mkBar 5 7; mkBar 6 7] 8 7)
    as (w' & R & F & _ & _ & B & _);
    try reflexivity; [split; reflexivity |].
  exists w'. split; [exact R | split; [exact F | exact B]].
Defined.

(** * Properties of the downloader *)

Module DownloadFacts.
Import Stdlib.Strings.String.
Import Download.

Section Facts.

Variables (Remote Frame : Type).
Variable stock_basic : Remote -> Outcome (list string) * Remote.
Variable pro_bar : string -> Remote -> Outcome (option Frame) * Remote.
Variable to_csv : Frame -> string -> Remote -> Outcome unit * Remote.

Local Notation "'body'" := (download_one Remote Frame pro_bar to_csv).
Local Notation "'script'" :=
  (main Remote Frame stock_basic pro_bar to_csv).
Local Notation "'loop' codes" := (for_each Remote Frame codes body)
  (at level 10, codes at level 9).

(** One pass of the body never raises and is one of the four attempts. *)
Lemma download_one_attempt (code : string) (s : Sys Remote Frame) :
  exists s' chunk,
    body code s = (Returned tt, s') /\
    Attempt code chunk /\
    trace s' = List.rev chunk ++ trace s.
Proof.
  unfold download_one, seq, try_except, print_line, time_sleep, ts_pro_bar,
    df_to_csv, emit, call, seq, raise. cbn [remote trace].
  destruct (pro_bar code (remote s)) as [[[df |] | e] m] eqn:Ep;
    cbn [remote trace].
  - destruct (to_csv df (csv_path code) m) as [[[] | e] m'] eqn:Ec;
      cbn [remote trace]; eexists; eexists;
      (split; [reflexivity |]); split.
    + apply (Saved code df).
    + reflexivity.
    + apply (WriteRaised code df e).
    + reflexivity.
  - eexists; eexists; (split; [reflexivity |]); split.
    + apply (FetchedNone code).
    + reflexivity.
  - eexists; eexists; (split; [reflexivity |]); split.
    + apply (FetchRaised code e).
    + reflexivity.
Qed.

Lemma for_each_attempts (codes : list string) : forall s : Sys Remote Frame,
  exists s' chunks,
    loop codes s = (Returned tt, s') /\
    Forall2 Attempt codes chunks /\
    history s' = history s ++ List.concat chunks.
Proof.
  induction codes as [| code codes IH]; intros s.
  - exists s, []. cbn. split; [reflexivity |]. split; [constructor |].
    now rewrite app_nil_r.
  - destruct (download_one_attempt code s) as (s1 & chunk & E1 & A & T1).
    destruct (IH s1) as (s' & chunks & E & F & T).
    exists s', (chunk :: chunks). cbn [for_each]. unfold seq at 1.
    rewrite E1. split; [exact E |]. split; [now constructor |].
    rewrite T. unfold history at 1. rewrite T1, rev_app_distr, rev_involutive.
    cbn [List.concat]. now rewrite app_assoc.
Qed.

(** *** Counting over attempts *)

Lemma attempts_fetched (codes : list string) (chunks : list (list (Effect Frame))) :
  Forall2 Attempt codes chunks -> fetched (List.concat chunks) = codes.
Proof.
  induction 1 as [| code chunk codes chunks A _ IH]; [reflexivity |].
  cbn [List.concat]. unfold fetched in *. rewrite flat_map_app, IH.
  now destruct A.
Qed.

Lemma seconds_slept_app (t t' : list (Effect Frame)) :
  seconds_slept (t ++ t') = (seconds_slept t + seconds_slept t')%nat.
Proof.
  unfold seconds_slept.
  induction t as [| e t IH]; [reflexivity |].
  cbn [app fold_right]. rewrite IH. destruct e; lia.
Qed.

Lemma attempts_slept (codes : list string) (chunks : list (list (Effect Frame))) :
  Forall2 Attempt codes chunks ->
  seconds_slept (List.concat chunks) = List.length codes.
Proof.
  induction 1 as [| code chunk codes chunks A _ IH]; [reflexivity |].
  cbn [List.concat List.length]. rewrite seconds_slept_app, IH.
  now destruct A.
Qed.

Lemma attempts_out_lines (codes : list string)
    (chunks : list (list (Effect Frame))) :
  Forall2 Attempt codes chunks ->
  List.length (out_lines (List.concat chunks)) = (2 * List.length codes)%nat.
Proof.
  induction 1 as [| code chunk codes chunks A _ IH]; [reflexivity |].
  cbn [List.concat List.length]. unfold out_lines in *.
  rewrite flat_map_app, length_app, IH. destruct A; cbn; lia.
Qed.

Lemma attempts_written (codes : list string) (chunks : list (list (Effect Frame))) :
  Forall2 Attempt codes chunks ->
  exists saved,
    written (List.concat chunks) = List.map csv_path saved /\
    (List.length saved <= List.length codes)%nat /\
    incl saved codes.
Proof.
  induction 1 as [| code chunk codes chunks A _ IH].
  - exists []. repeat split; auto. intros c [].
  - destruct IH as (saved & E & L & I).
    cbn [List.concat]. unfold written in *. rewrite flat_map_app, E.
    destruct A; cbn.
    1,2: exists saved; repeat split; [lia | now apply incl_tl].
    all: exists (code :: saved); repeat split;
      [cbn [List.length]; lia
      | apply incl_cons; [now left | now apply incl_tl]].
Qed.

(** ** What the script guarantees *)



(** X15.  One pass of the loop body prints the success line for its code
    exactly when [pro_bar] returned a table and [to_csv] returned
    normally; it calls [to_csv] -- once, on [../data/a-shares/<code>.csv]
    -- exactly when [pro_bar] returned a table, and never otherwise. *)
Theorem success_line_means_file_written
    (code : string) (s : Sys Remote Frame) :
  exists t,
    history (snd (body code s)) = history s ++ t /\
    (In (Out (success_line code)) t <->
     exists df m m',
       pro_bar code (remote s) = (Returned (Some df), m) /\
       to_csv df (csv_path code) m = (Returned tt, m')) /\
    (written t = [csv_path code] <->
     exists df m, pro_bar code (remote s) = (Returned (Some df), m)) /\
    (written t = [] \/ written t = [csv_path code]).
Proof.
  unfold download_one, seq, try_except, print_line, time_sleep, ts_pro_bar,
    df_to_csv, emit, call, seq, raise, history. cbn [remote trace].
  assert (forall l : list (Effect Frame),
            ~ In (Out (success_line code)) l ->
            ~ In (Out (success_line code))
                (Out (try_line code) :: ProBar code :: l)) as Head.
  { intros l Hl [H | [H | H]]; try discriminate. now apply Hl. }
  assert (forall e : string,
            ~ In (Out (Frame := Frame) (success_line code))
                [Out (error_line e); Sleep 1]) as Tail.
  { intros e [H | [H | []]]; discriminate. }
  destruct (pro_bar code (remote s)) as [[[df |] | e] m] eqn:Ep;
    cbn [remote trace snd].
  - destruct (to_csv df (csv_path code) m) as [[[] | e] m'] eqn:Ec;
      cbn [remote trace snd List.rev]; rewrite <- !app_assoc; cbn [app];
      eexists; (split; [reflexivity |]); cbn [written flat_map app];
      (split; [| split; [| now right]]).
    + split; [| intros _; cbn; auto 10].
      intros _. exists df, m, m'. split; [reflexivity | exact Ec].
    + split; [| reflexivity]. intros _. now exists df, m.
    + split.
      * intros H. exfalso. revert H. apply Head.
        intros [H | H]; [discriminate | now apply (Tail e)].
      * intros (df' & m1 & m2 & [= <- <-] & E2). congruence.
    + split; [| reflexivity]. intros _. now exists df, m.
  - cbn [List.rev]; rewrite <- !app_assoc; cbn [app].
    eexists; (split; [reflexivity |]); cbn [written flat_map app].
    split; [| split; [| now left]].
    + split.
      * intros H. exfalso. revert H. apply Head, Tail.
      * intros (df' & m1 & m2 & [=] & _).
    + split; [discriminate |]. intros (df' & m1 & [=]).
  - cbn [List.rev]; rewrite <- !app_assoc; cbn [app].
    eexists; (split; [reflexivity |]); cbn [written flat_map app].
    split; [| split; [| now left]].
    + split.
      * intros H. exfalso. revert H. apply Head, Tail.
      * intros (df' & m1 & m2 & [=] & _).
    + split; [discriminate |]. intros (df' & m1 & [=]).
Qed.

End Facts.

(** The sample service: the first code is saved, the second fails, the
    script still ends normally. *)
Example sample_run :
  history (snd (main nat nat sample_stock_basic sample_pro_bar sample_to_csv
                  fresh))
  = [Out ">>> try to get: 000001.SZ"%string; ProBar "000001.SZ"%string;
     ToCsv "../data/a-shares/000001.SZ.csv"%string 7%nat;
     Out ">>> get 000001.SZ success!!"%string; Sleep 1;
     Out ">>> try to get: 000002.SZ"%string; ProBar "000002.SZ"%string;
     Out "[ERROR] timed out"%string; Sleep 1].
Proof. reflexivity. Qed.

Example sample_down :
  main nat nat down_stock_basic sample_pro_bar sample_to_csv fresh
  = (Raised "connection refused"%string, fresh).
Proof. reflexivity. Qed.

End DownloadFacts.
